(** * The crawl4ai bridge (src/python/bridge.py): dispatch and aggregation

    A shallow embedding of the bridge's action handlers and dispatcher.
    Python values that cross the process boundary are JSON values; the
    browser-automation engine and the two search backends are collaborators,
    given as records of functions (their answers) and observed through the
    effects the bridge performs on them. *)

From Stdlib Require Import ZArith Ascii DecimalString.
From stdpp Require Import base decidable option list strings gmap.

Set Warnings "-register-all".
Set Default Proof Using "Type".

(** ** Python values *)

(** What [json.loads] produces and [json.dumps] accepts.  A dict is an
    association list in insertion order (Python dicts are ordered, and the
    order of an envelope's keys is the order of the assignments that built
    it), with one entry per key.  No arithmetic is done on floats: a float
    is kept as its Python rendering.  [None] is [JNull]. *)
Inductive json : Type :=
| JNull
| JBool (b : bool)
| JInt (z : Z)
| JFloat (rendering : string)
| JStr (s : string)
| JArr (items : list json)
| JObj (fields : list (string * json)).

(** ** Exceptions *)

(** [str(z)] for an int *)
Definition str_int (z : Z) : string := NilZero.string_of_int (Z.to_int z).

(** The exception classes the bridge raises itself or meets in its own
    steps; anything else is [OtherError] with its class name.  All derive
    from [Exception].  [main] tells [json.JSONDecodeError] apart, whose
    [str()] is built from a message and a position. *)
Inductive exn_class : Type :=
| KeyError
| TypeError
| AttributeError
| Exception_
| OtherError (name : string).

Inductive py_exn : Type :=
| JSONDecodeError (msg : string) (lineno colno pos : Z)
| PyExn (cls : exn_class) (str : string).

(** [str(e)] *)
Definition exn_str (e : py_exn) : string :=
  match e with
  | JSONDecodeError msg lineno colno pos =>
      msg +:+ ": line " +:+ str_int lineno +:+ " column " +:+ str_int colno
          +:+ " (char " +:+ str_int pos +:+ ")"
  | PyExn _ str => str
  end.

Definition is_JSONDecodeError (e : py_exn) : bool :=
  match e with JSONDecodeError _ _ _ _ => true | PyExn _ _ => false end.

(** [type(v).__name__] *)
Definition type_name (v : json) : string :=
  match v with
  | JNull => "NoneType"
  | JBool _ => "bool"
  | JInt _ => "int"
  | JFloat _ => "float"
  | JStr _ => "str"
  | JArr _ => "list"
  | JObj _ => "dict"
  end.

(** [d.get(k)] / [k in d] on a dict *)
Fixpoint assoc {A : Type} (k : string) (d : list (string * A)) : option A :=
  match d with
  | [] => None
  | (k', v) :: d' => if bool_decide (k' = k) then Some v else assoc k d'
  end.

(** [d[k] = v]: overwrite in place, or append a new key *)
Fixpoint dict_set {A : Type} (k : string) (v : A) (d : list (string * A))
  : list (string * A) :=
  match d with
  | [] => [(k, v)]
  | (k', v') :: d' =>
      if bool_decide (k' = k) then (k, v) :: d' else (k', v') :: dict_set k v d'
  end.

(** [v == s] for a string literal [s]: a value that is not a [str] is never
    equal to one. *)
Definition eq_str (v : json) (s : string) : bool :=
  match v with JStr t => bool_decide (t = s) | _ => false end.

(** [v[k]] for a string key [k].  [str(KeyError(k))] is [repr(k)], which for
    the keys of this program (letters and underscores) is [k] in single
    quotes. *)
Definition py_getitem (v : json) (k : string) : py_exn + json :=
  match v with
  | JObj d =>
      match assoc k d with
      | Some x => inr x
      | None => inl (PyExn KeyError ("'" +:+ k +:+ "'"))
      end
  | JArr _ =>
      inl (PyExn TypeError "list indices must be integers or slices, not str")
  | JStr _ =>
      inl (PyExn TypeError "string indices must be integers, not 'str'")
  | _ =>
      inl (PyExn TypeError ("'" +:+ type_name v +:+ "' object is not subscriptable"))
  end.

(** [v.get(k, dflt)]: only a dict has the method. *)
Definition py_get (v : json) (k : string) (dflt : json) : py_exn + json :=
  match v with
  | JObj d => inr (default dflt (assoc k d))
  | _ =>
      inl (PyExn AttributeError
             ("'" +:+ type_name v +:+ "' object has no attribute 'get'"))
  end.

(** sequencing of steps that may raise *)
Definition and_then {A B} (r : py_exn + A) (k : A -> py_exn + B) : py_exn + B :=
  match r with
  | inl e => inl e
  | inr x => k x
  end.

(** ** Strings and slices *)

(** [s.rstrip(c)] for one character [c] *)
Fixpoint rstrip (c : ascii) (s : string) : string :=
  match s with
  | EmptyString => EmptyString
  | String a s' =>
      match rstrip c s' with
      | EmptyString => if bool_decide (a = c) then EmptyString else String a EmptyString
      | t => String a t
      end
  end.

(** [c.lower()] and [s.lower()] on ASCII; bytes above 127 are left alone
    (the case folding of non-ASCII text is outside this model). *)
Definition lower_ascii (c : ascii) : ascii :=
  let n := nat_of_ascii c in
  if (65 <=? n)%nat && (n <=? 90)%nat then ascii_of_nat (n + 32) else c.

Fixpoint lower (s : string) : string :=
  match s with
  | EmptyString => EmptyString
  | String c s' => String (lower_ascii c) (lower s')
  end.

(** [needle in hay] on strings *)
Fixpoint contains (needle hay : string) : bool :=
  String.prefix needle hay ||
  match hay with
  | EmptyString => false
  | String _ hay' => contains needle hay'
  end.

(** [l[:k]]: a negative [k] counts from the end. *)
Definition slice_upto {A : Type} (k : Z) (l : list A) : list A :=
  if (k <? 0)%Z
  then take (Z.to_nat (Z.max 0 (Z.of_nat (length l) + k))) l
  else take (Z.to_nat k) l.

(** [str(v)], as an f-string renders a value.  [repr] of a [str] (the choice
    of quotes, the escapes) is not modelled: it is the parameter [repr_str],
    used only for the strings inside a list or a dict. *)
Section Rendering.
Variable repr_str : string -> string.

Fixpoint py_repr (v : json) : string :=
  match v with
  | JNull => "None"
  | JBool true => "True"
  | JBool false => "False"
  | JInt z => str_int z
  | JFloat r => r
  | JStr s => repr_str s
  | JArr l => "[" +:+ String.concat ", " (map py_repr l) +:+ "]"
  | JObj d =>
      "{" +:+ String.concat ", "
                (map (fun p => repr_str (fst p) +:+ ": " +:+ py_repr (snd p)) d)
          +:+ "}"
  end.

Definition py_str (v : json) : string :=
  match v with
  | JStr s => s
  | _ => py_repr v
  end.
End Rendering.

(** ** Effects *)

(** Configuration objects handed to the engine.  [BrowserConfig] is always
    built with [verbose=False]; a field the bridge leaves out is [None] (the
    engine's default applies). *)
Record BrowserConfig : Type := {
  headless : bool;
  browser_type : string;
  enable_stealth : option bool;
  extra_args : option (list string);
  viewport : option (Z * Z)
}.

Inductive traversal : Type := BFS | DFS.

(** [BFSDeepCrawlStrategy] / [DFSDeepCrawlStrategy]; a filter chain is a list
    of URL-pattern filters, each a list of patterns. *)
Record DeepCrawlStrategy : Type := {
  order : traversal;
  max_depth : Z;
  max_pages : Z;
  filter_chain : option (list (list string))
}.

(** [CrawlerRunConfig], always with [cache_mode=CacheMode.BYPASS] and
    [verbose=False]. *)
Record CrawlerRunConfig : Type := {
  wait_for : option string;
  js_code : option (list string);
  page_timeout : option Z;
  deep_crawl_strategy : option DeepCrawlStrategy;
  stream : bool
}.

(** What a handler does to the outside world, in order. *)
Inductive effect : Type :=
| HttpGet (url : string) (params : list (string * string))
    (** tier 1: [client.get(url, params=...)] *)
| DdgsText (query : string) (max_results : Z)
    (** tier 2: [ddgs.text(query, max_results=...)] *)
| Arun (url : string) (browser : BrowserConfig) (run : CrawlerRunConfig)
    (** [crawler.arun(url=..., config=...)] *)
| Next
    (** one result taken from the engine's stream *)
| Stderr (line : string).

(** What the process does: its handlers' effects, and lines on stdout (each
    one a JSON document). *)
Inductive io : Type :=
| Effect (e : effect)
| Stdout (line : json).

(** A computation writes a trace of events and raises or returns. *)
Definition M (E A : Type) : Type := list E * (py_exn + A).

Definition ret {E A} (x : A) : M E A := ([], inr x).
Definition raise {E A} (e : py_exn) : M E A := ([], inl e).
Definition emit {E} (ev : E) : M E unit := ([ev], inr tt).

Definition bind {E A B} (m : M E A) (k : A -> M E B) : M E B :=
  match m with
  | (tr, inl e) => (tr, inl e)
  | (tr, inr x) => let '(tr', r) := k x in (tr ++ tr', r)
  end.

(** [try: m  except Exception as e: h e] *)
Definition try_except {E A} (m : M E A) (h : py_exn -> M E A) : M E A :=
  match m with
  | (tr, inl e) => let '(tr', r) := h e in (tr ++ tr', r)
  | (tr, inr x) => (tr, inr x)
  end.

(** a pure step that may raise *)
Definition lift {E A} (r : py_exn + A) : M E A := ([], r).

(** a handler's computation inside the process *)
Definition run_handler {A} (m : M effect A) : M io A :=
  (Effect <$> fst m, snd m).

Declare Scope py_scope.
Delimit Scope py_scope with py.
Notation "x <- m ;; k" := (bind m (fun x => k))
  (at level 100, m at next level, right associativity) : py_scope.
Notation "m ;;; k" := (bind m (fun _ => k))
  (at level 100, right associativity) : py_scope.

Definition trace {E A} (m : M E A) : list E := fst m.
Definition outcome {E A} (m : M E A) : py_exn + A := snd m.

(** the lines written to stdout *)
Definition stdout (tr : list io) : list json :=
  omap (fun ev => match ev with Stdout l => Some l | Effect _ => None end) tr.

(** ** Response envelope *)

(** [log_error]: one line on stderr. *)
Definition log_error (msg : string) : M effect unit :=
  emit (Stderr ("[bridge error] " +:+ msg)).

(** The dict [result] that [respond] builds: [data] goes in unless it is
    [None], [error] goes in when it is truthy (neither [None] nor the empty
    string). *)
Definition envelope (success : bool) (data : json) (error : option string)
  : json :=
  let result := [("success", JBool success)] in
  let result :=
    match data with
    | JNull => result
    | _ => dict_set "data" data result
    end in
  let result :=
    match error with
    | Some msg => if bool_decide (msg = "") then result
                  else dict_set "error" (JStr msg) result
    | None => result
    end in
  JObj result.

(** [respond]: one line on stdout, the envelope. *)
Definition respond (success : bool) (data : json) (error : option string)
  : M io unit :=
  emit (Stdout (envelope success data error)).

(** ** The browser-automation engine *)

(** Modelled from the spec: the [markdown] attribute of an engine result
    (the engine is a dependency, not part of src/).  The engine exposes
    "raw/cleaned markdown": a markdown result object carries both
    representations, the raw one under the attribute [raw_markdown] that the
    bridge probes with [hasattr].  Any other object is known through its
    [str()]. *)
Inductive markdown_value : Type :=
| MarkdownResult (raw_markdown cleaned_markdown : string)
| MarkdownText (text : string).

(** Modelled from the spec: one entry of a result's link metadata, "either
    a bare URL or a structure with an href and display text" (a dict from
    attribute names to strings). *)
Inductive link : Type :=
| LinkStr (href : string)
| LinkDict (attrs : gmap string string).

Global Instance link_eq_dec : EqDecision link.
Proof. solve_decision. Defined.

(** Modelled from the spec: the engine's result, with the accessors the
    bridge reads.  [links] is [None] when the attribute is missing or
    [None]; otherwise it groups the links ("internal", "external"). *)
Module CrawlResult.
Record t : Type := {
  success : bool;
  error_message : option string;
  html : string;
  raw_html : string;
  markdown : markdown_value;
  url : string;
  links : option (gmap string (list link))
}.
End CrawlResult.

(** An asynchronous generator as the consumer sees it: it ends, yields one
    more item, or raises. *)
Inductive agen (A : Type) : Type :=
| Done
| Yield (item : A) (rest : agen A)
| Fail (e : py_exn).
Arguments Done {A}.
Arguments Yield {A} item rest.
Arguments Fail {A} e.

Fixpoint agen_of_list {A} (l : list A) : agen A :=
  match l with
  | [] => Done
  | x :: l' => Yield x (agen_of_list l')
  end.

(** [AsyncWebCrawler]: [arun] answers a single-page run, [arun_stream] a run
    whose configuration asks for a streamed deep crawl.  Entering the
    crawler's context is part of the call. *)
Record engine : Type := {
  arun : string -> BrowserConfig -> CrawlerRunConfig -> py_exn + CrawlResult.t;
  arun_stream :
    string -> BrowserConfig -> CrawlerRunConfig -> py_exn + agen CrawlResult.t
}.

(** [x or dflt] for an optional string *)
Definition or_str (x : option string) (dflt : string) : string :=
  match x with
  | Some s => if bool_decide (s = "") then dflt else s
  | None => dflt
  end.

(** truthiness of an optional string *)
Definition truthy (x : option string) : bool :=
  match x with
  | Some s => negb (bool_decide (s = ""))
  | None => false
  end.

Definition stealth_browser : BrowserConfig :=
  {| headless := true;
     browser_type := "chromium";
     enable_stealth := Some true;
     extra_args := Some ["--disable-blink-features=AutomationControlled"];
     viewport := None |}.

(** the markdown of a result, as [fetch_action] and [crawl_action] take it:
    [raw_markdown] when the object has it, else [str()] of the object *)
Definition markdown_text (m : markdown_value) : string :=
  match m with
  | MarkdownResult raw_markdown _ => raw_markdown
  | MarkdownText text => text
  end.

(** ** fetch *)

Definition fetch_action (E : engine) (url format : string)
    (wait_for js_code : option string) (timeout : Z) : M effect string :=
  let browser_config := stealth_browser in
  let run_config :=
    {| wait_for := wait_for;
       js_code := match js_code with
                  | Some c => if truthy js_code then Some [c] else None
                  | None => None
                  end;
       page_timeout := Some (timeout * 1000)%Z;
       deep_crawl_strategy := None;
       stream := false |} in
  (emit (Arun url browser_config run_config) ;;;
   result <- lift (arun E url browser_config run_config) ;;
   if negb (CrawlResult.success result)
   then raise (PyExn Exception_
                 (or_str (CrawlResult.error_message result) "Failed to fetch URL"))
   else if bool_decide (format = "html") then ret (CrawlResult.html result)
   else if bool_decide (format = "raw") then ret (CrawlResult.raw_html result)
   else ret (markdown_text (CrawlResult.markdown result)))%py.

(** ** search *)

(** One search result, [{"url": ..., "title": ..., "snippet": ...}].  The
    values are whatever the backend's entry holds under the source keys. *)
Module SearchResult.
Record t : Type := { url : json; title : json; snippet : json }.
End SearchResult.

(** An HTTP response: its status, and what [response.json()] gives. *)
Record http_response : Type := {
  status_code : Z;
  json_body : py_exn + json
}.

(** The two search backends.  Each answer stands for the whole attempt on
    that tier: importing the client library, opening the client, and the
    call ([client.get] for the aggregator, [ddgs.text] for the public
    provider). *)
Record backends : Type := {
  httpx_get : string -> list (string * string) -> py_exn + http_response;
  ddgs_text : string -> Z -> py_exn + list json
}.

(** The iteration [for item in v[:limit]]: the items of the slice.  A list
    gives its first elements, a string its characters (as bytes here); a dict
    cannot be sliced and the other values cannot be subscripted. *)
Definition slice_items (v : json) (limit : Z) : py_exn + list json :=
  match v with
  | JArr l => inr (slice_upto limit l)
  | JStr s =>
      inr ((fun c => JStr (String c EmptyString)) <$>
             slice_upto limit (String.list_ascii_of_string s))
  | JObj _ => inl (PyExn TypeError "unhashable type: 'slice'")
  | _ =>
      inl (PyExn TypeError ("'" +:+ type_name v +:+ "' object is not subscriptable"))
  end.

(** The two normalizations of a backend entry; the three [get]s are
    evaluated in the order of the dict display. *)
Definition searxng_result (item : json) : py_exn + SearchResult.t :=
  and_then (py_get item "url" (JStr "")) (fun url =>
  and_then (py_get item "title" (JStr "")) (fun title =>
  and_then (py_get item "content" (JStr "")) (fun content =>
  inr {| SearchResult.url := url;
         SearchResult.title := title;
         SearchResult.snippet := content |}))).

Definition ddgs_result (item : json) : py_exn + SearchResult.t :=
  and_then (py_get item "href" (JStr "")) (fun href =>
  and_then (py_get item "title" (JStr "")) (fun title =>
  and_then (py_get item "body" (JStr "")) (fun body =>
  inr {| SearchResult.url := href;
         SearchResult.title := title;
         SearchResult.snippet := body |}))).

(** [for item in items: results.append(f(item))] on the shared list
    [results]: when [f] raises, the entries appended so far stay in it. *)
Fixpoint append_each {A B} (f : A -> py_exn + B) (items : list A)
    (results : list B) : list B * option py_exn :=
  match items with
  | [] => (results, None)
  | item :: items' =>
      match f item with
      | inl e => (results, Some e)
      | inr r => append_each f items' (results ++ [r])
      end
  end.

(** How the tier-1 [try] block is left, with the contents of [results]. *)
Inductive tier1_exit : Type :=
| Returned (results : list SearchResult.t)
| FellThrough (results : list SearchResult.t)
| Raised (results : list SearchResult.t) (e : py_exn).

(** [data.get("results", [])[:limit]] of a response *)
Definition searxng_items (response : http_response) (limit : Z)
  : py_exn + list json :=
  and_then (json_body response) (fun data =>
  and_then (py_get data "results" (JArr [])) (fun results =>
  slice_items results limit)).

Definition searxng_endpoint (SEARXNG_URL : string) : string :=
  rstrip "/" SEARXNG_URL +:+ "/search".

Definition searxng_params (query : string) : list (string * string) :=
  [("q", query); ("format", "json")].

(** the body of the [try] *)
Definition searxng_try (B : backends) (SEARXNG_URL query : string) (limit : Z)
  : tier1_exit :=
  match httpx_get B (searxng_endpoint SEARXNG_URL) (searxng_params query) with
  | inl e => Raised [] e
  | inr response =>
      if (status_code response =? 200)%Z then
        match searxng_items response limit with
        | inl e => Raised [] e
        | inr items =>
            match append_each searxng_result items [] with
            | (results, Some e) => Raised results e
            | (results, None) =>
                match results with
                | [] => FellThrough results
                | _ :: _ => Returned results
                end
            end
        end
      else FellThrough []
  end.

Definition all_backends_failed : string :=
  "All search backends failed. Configure SEARXNG_URL or ensure ddgs is available.".

(** the fallback, continuing with the shared [results] *)
Definition ddgs_fallback (B : backends) (query : string) (limit : Z)
    (results : list SearchResult.t) : M effect (list SearchResult.t) :=
  (emit (DdgsText query limit) ;;;
   try_except
     (items <- lift (ddgs_text B query limit) ;;
      match append_each ddgs_result items results with
      | (_, Some e) => raise e
      | (results, None) => ret results
      end)
     (fun e =>
        log_error ("DDG search failed: " +:+ exn_str e) ;;;
        raise (PyExn Exception_ all_backends_failed)))%py.

(** [search_action]; [SEARXNG_URL] is the module-level constant read from
    the environment (empty when the variable is unset). *)
Definition search_action (SEARXNG_URL : string) (B : backends)
    (query : string) (limit : Z) : M effect (list SearchResult.t) :=
  if truthy (Some SEARXNG_URL) then
    (emit (HttpGet (searxng_endpoint SEARXNG_URL) (searxng_params query)) ;;;
     match searxng_try B SEARXNG_URL query limit with
     | Returned results => ret results
     | FellThrough results => ddgs_fallback B query limit results
     | Raised results e =>
         log_error ("SearXNG search failed: " +:+ exn_str e) ;;;
         ddgs_fallback B query limit results
     end)%py
  else ddgs_fallback B query limit [].

(** ** crawl *)

Module CrawlPage.
Record t : Type := { url : string; markdown : string }.
End CrawlPage.

(** [async for result in ...] with the accumulator [pages]; returning from
    the middle of the stream is the [break]. *)
Fixpoint crawl_loop (max_pages : Z) (results : agen CrawlResult.t)
    (pages : list CrawlPage.t) : M effect (list CrawlPage.t) :=
  match results with
  | Done => ret pages
  | Fail e => raise e
  | Yield result rest =>
      (emit Next ;;;
       if CrawlResult.success result then
         let markdown := markdown_text (CrawlResult.markdown result) in
         let pages :=
           pages ++ [ {| CrawlPage.url := CrawlResult.url result;
                         CrawlPage.markdown := markdown |} ] in
         if (Z.of_nat (length pages) >=? max_pages)%Z then ret pages
         else crawl_loop max_pages rest pages
       else crawl_loop max_pages rest pages)%py
  end.

Definition crawl_action (E : engine) (url : string) (max_pages max_depth : Z)
    (strategy : string) (url_pattern : option string)
  : M effect (list CrawlPage.t) :=
  let filter_chain :=
    match url_pattern with
    | Some p => if truthy url_pattern then Some [[p]] else None
    | None => None
    end in
  let crawl_strategy :=
    if bool_decide (strategy = "dfs")
    then {| order := DFS; max_depth := max_depth; max_pages := max_pages;
            filter_chain := filter_chain |}
    else {| order := BFS; max_depth := max_depth; max_pages := max_pages;
            filter_chain := filter_chain |} in
  let browser_config := stealth_browser in
  let run_config :=
    {| wait_for := None; js_code := None; page_timeout := None;
       deep_crawl_strategy := Some crawl_strategy; stream := true |} in
  (emit (Arun url browser_config run_config) ;;;
   results <- lift (arun_stream E url browser_config run_config) ;;
   crawl_loop max_pages results [])%py.

(** ** map *)

(** One map entry, [{"url": ..., "title": ...}].  The url is the link's
    [href], the bare link, or (a dict without [href]) the link itself. *)
Module MapEntry.
Record t : Type := { url : link; title : string }.
End MapEntry.

Global Instance MapEntry_eq_dec : EqDecision MapEntry.t.
Proof. solve_decision. Defined.

(** truthiness of an entry's url: a non-empty string, a non-empty dict *)
Definition link_truthy (l : link) : bool :=
  match l with
  | LinkStr s => negb (bool_decide (s = ""))
  | LinkDict d => negb (bool_decide (d = ∅))
  end.

Definition map_entry (l : link) : MapEntry.t :=
  match l with
  | LinkDict d =>
      {| MapEntry.url := match d !! "href" with
                         | Some h => LinkStr h
                         | None => l
                         end;
         MapEntry.title := default "" (d !! "text") |}
  | LinkStr _ => {| MapEntry.url := l; MapEntry.title := "" |}
  end.

(** the body of the inner [for link in ...] *)
Definition collect_link (links : list MapEntry.t) (l : link) : list MapEntry.t :=
  let entry := map_entry l in
  if link_truthy (MapEntry.url entry) && negb (bool_decide (entry ∈ links))
  then links ++ [entry]
  else links.

(** the body of the outer [async for result in ...] *)
Definition collect_result (links : list MapEntry.t) (result : CrawlResult.t)
  : list MapEntry.t :=
  match CrawlResult.links result with
  | Some groups =>
      if CrawlResult.success result && negb (bool_decide (groups = ∅))
      then foldl collect_link links (default [] (groups !! "internal"))
      else links
  | None => links
  end.

Fixpoint map_loop (results : agen CrawlResult.t) (links : list MapEntry.t)
  : M effect (list MapEntry.t) :=
  match results with
  | Done => ret links
  | Fail e => raise e
  | Yield result rest =>
      (emit Next ;;; map_loop rest (collect_result links result))%py
  end.

(** the comprehension that keeps the entries matching [search_lower];
    [.lower()] exists on a string url only *)
Fixpoint search_filter (search_lower : string) (links : list MapEntry.t)
  : py_exn + list MapEntry.t :=
  match links with
  | [] => inr []
  | lnk :: links' =>
      match MapEntry.url lnk with
      | LinkStr u =>
          let keep := contains search_lower (lower u)
                      || contains search_lower (lower (MapEntry.title lnk)) in
          match search_filter search_lower links' with
          | inl e => inl e
          | inr kept => inr (if keep then lnk :: kept else kept)
          end
      | LinkDict _ =>
          inl (PyExn AttributeError "'dict' object has no attribute 'lower'")
      end
  end.

Definition map_action (E : engine) (url : string) (search : option string)
    (limit : Z) : M effect (list MapEntry.t) :=
  let browser_config :=
    {| headless := true; browser_type := "chromium";
       enable_stealth := None; extra_args := None; viewport := None |} in
  let run_config :=
    {| wait_for := None; js_code := None; page_timeout := None;
       deep_crawl_strategy :=
         Some {| order := BFS; max_depth := 1; max_pages := limit;
                 filter_chain := None |};
       stream := true |} in
  (emit (Arun url browser_config run_config) ;;;
   results <- lift (arun_stream E url browser_config run_config) ;;
   links <- map_loop results [] ;;
   links <- match search, links with
            | Some q, _ :: _ =>
                if truthy search then lift (search_filter (lower q) links)
                else ret links
            | _, _ => ret links
            end ;;
   ret (slice_upto limit links))%py.

(** ** The dispatcher *)

(** The handlers as [main] calls them: with the values found in [params],
    whatever their types, each one performing effects and then raising or
    returning the data ([JNull] for [None]).  What is proved of [main] holds
    for every such behaviour, so for that of the bridge's handlers. *)
Module Handlers.
Record t : Type := {
  debug_action : M effect json;
  fetch_action : json -> json -> json -> json -> json -> M effect json;
  search_action : json -> json -> M effect json;
  extract_action : json -> json -> M effect json;
  screenshot_action : json -> json -> json -> M effect json;
  crawl_action : json -> json -> json -> json -> json -> M effect json;
  map_action : json -> json -> json -> M effect json
}.
End Handlers.

(** The seven action names, in the order of the [if]/[elif] chain. *)
Definition known_actions : list string :=
  ["debug"; "fetch"; "search"; "extract"; "screenshot"; "crawl"; "map"].

(** The [if]/[elif] chain of [main], after [action] and [params] are read. *)
Definition dispatch (repr_str : string -> string) (H : Handlers.t)
    (action params : json) : M io unit :=
  (if eq_str action "debug" then
     data <- run_handler (Handlers.debug_action H) ;;
     respond true data None
   else if eq_str action "fetch" then
     url <- lift (py_getitem params "url") ;;
     format <- lift (py_get params "format" (JStr "markdown")) ;;
     wait_for <- lift (py_get params "wait_for" JNull) ;;
     js_code <- lift (py_get params "js_code" JNull) ;;
     timeout <- lift (py_get params "timeout" (JInt 30)) ;;
     data <- run_handler (Handlers.fetch_action H url format wait_for js_code timeout) ;;
     respond true data None
   else if eq_str action "search" then
     query <- lift (py_getitem params "query") ;;
     limit <- lift (py_get params "limit" (JInt 10)) ;;
     data <- run_handler (Handlers.search_action H query limit) ;;
     respond true data None
   else if eq_str action "extract" then
     url <- lift (py_getitem params "url") ;;
     schema <- lift (py_getitem params "schema") ;;
     data <- run_handler (Handlers.extract_action H url schema) ;;
     respond true data None
   else if eq_str action "screenshot" then
     url <- lift (py_getitem params "url") ;;
     width <- lift (py_get params "width" (JInt 1280)) ;;
     height <- lift (py_get params "height" (JInt 720)) ;;
     data <- run_handler (Handlers.screenshot_action H url width height) ;;
     respond true data None
   else if eq_str action "crawl" then
     url <- lift (py_getitem params "url") ;;
     max_pages <- lift (py_get params "max_pages" (JInt 10)) ;;
     max_depth <- lift (py_get params "max_depth" (JInt 2)) ;;
     strategy <- lift (py_get params "strategy" (JStr "bfs")) ;;
     url_pattern <- lift (py_get params "url_pattern" JNull) ;;
     data <- run_handler
               (Handlers.crawl_action H url max_pages max_depth strategy url_pattern) ;;
     respond true data None
   else if eq_str action "map" then
     url <- lift (py_getitem params "url") ;;
     search <- lift (py_get params "search" JNull) ;;
     limit <- lift (py_get params "limit" (JInt 100)) ;;
     data <- run_handler (Handlers.map_action H url search limit) ;;
     respond true data None
   else
     respond false JNull (Some ("Unknown action: " +:+ py_str repr_str action)))%py.

(** The body of the [try] of [main] once the input is decoded. *)
Definition serve (repr_str : string -> string) (H : Handlers.t)
    (request : json) : M io unit :=
  (action <- lift (py_get request "action" JNull) ;;
   params <- lift (py_get request "params" (JObj [])) ;;
   dispatch repr_str H action params)%py.

(** [main].  [stdin] is what [json.loads(sys.stdin.read())] comes to: the
    decoded document, or the exception raised on the way. *)
Definition main (repr_str : string -> string) (H : Handlers.t)
    (stdin : py_exn + json) : M io unit :=
  try_except
    (request <- lift stdin ;; serve repr_str H request)%py
    (fun e =>
       if is_JSONDecodeError e
       then respond false JNull (Some ("Invalid JSON request: " +:+ exn_str e))
       else respond false JNull (Some (exn_str e))).

(** An envelope's fields. *)
Definition has_field (k : string) (envelope : json) : bool :=
  match envelope with
  | JObj d => bool_decide (is_Some (assoc k d))
  | _ => false
  end.

(** ** Vocabulary of the statements *)

(** The handler call that a request selects, if any: the arguments are
    read from [params] as in the branch of the action, and reading them may
    raise.  [None] when the action is none of the seven. *)
Definition handler_call (H : Handlers.t) (action params : json)
  : py_exn + option (M effect json) :=
  if eq_str action "debug" then inr (Some (Handlers.debug_action H))
  else if eq_str action "fetch" then
    and_then (py_getitem params "url") (fun url =>
    and_then (py_get params "format" (JStr "markdown")) (fun format =>
    and_then (py_get params "wait_for" JNull) (fun wait_for =>
    and_then (py_get params "js_code" JNull) (fun js_code =>
    and_then (py_get params "timeout" (JInt 30)) (fun timeout =>
    inr (Some (Handlers.fetch_action H url format wait_for js_code timeout)))))))
  else if eq_str action "search" then
    and_then (py_getitem params "query") (fun query =>
    and_then (py_get params "limit" (JInt 10)) (fun limit =>
    inr (Some (Handlers.search_action H query limit))))
  else if eq_str action "extract" then
    and_then (py_getitem params "url") (fun url =>
    and_then (py_getitem params "schema") (fun schema =>
    inr (Some (Handlers.extract_action H url schema))))
  else if eq_str action "screenshot" then
    and_then (py_getitem params "url") (fun url =>
    and_then (py_get params "width" (JInt 1280)) (fun width =>
    and_then (py_get params "height" (JInt 720)) (fun height =>
    inr (Some (Handlers.screenshot_action H url width height)))))
  else if eq_str action "crawl" then
    and_then (py_getitem params "url") (fun url =>
    and_then (py_get params "max_pages" (JInt 10)) (fun max_pages =>
    and_then (py_get params "max_depth" (JInt 2)) (fun max_depth =>
    and_then (py_get params "strategy" (JStr "bfs")) (fun strategy =>
    and_then (py_get params "url_pattern" JNull) (fun url_pattern =>
    inr (Some (Handlers.crawl_action H url max_pages max_depth strategy
                 url_pattern)))))))
  else if eq_str action "map" then
    and_then (py_getitem params "url") (fun url =>
    and_then (py_get params "search" JNull) (fun search =>
    and_then (py_get params "limit" (JInt 100)) (fun limit =>
    inr (Some (Handlers.map_action H url search limit)))))
  else inr None.

(** [str(e)], behind the prefix that [main] puts before a decode error *)
Definition error_text (e : py_exn) : string :=
  if is_JSONDecodeError e then "Invalid JSON request: " +:+ exn_str e
  else exn_str e.

(** the [action] and [params] of a decoded request object *)
Definition request_action (fields : list (string * json)) : json :=
  default JNull (assoc "action" fields).

Definition request_params (fields : list (string * json)) : json :=
  default (JObj []) (assoc "params" fields).

Definition is_dict (v : json) : Prop :=
  match v with JObj _ => True | _ => False end.

Global Instance is_dict_dec v : Decision (is_dict v).
Proof. destruct v; simpl; apply _. Defined.

(** [r] is the entry [item] with the value under [ku] as url, under [kt] as
    title and under [ks] as snippet, each defaulting to the empty string. *)
Definition normalized_from (ku kt ks : string) (item : json)
    (r : SearchResult.t) : Prop :=
  exists d, item = JObj d /\
    SearchResult.url r = default (JStr "") (assoc ku d) /\
    SearchResult.title r = default (JStr "") (assoc kt d) /\
    SearchResult.snippet r = default (JStr "") (assoc ks d).

Definition is_tier2_call (ev : effect) : bool :=
  match ev with DdgsText _ _ => true | _ => false end.

(** how many times the second tier was called *)
Definition tier2_calls (tr : list effect) : nat :=
  length (filter (fun ev => is_tier2_call ev = true) tr).

(** The ways the first tier fails to give results, read off its answer. *)
Inductive tier1_failure (B : backends) (SEARXNG_URL query : string)
    (limit : Z) : Prop :=
| transport_error e :
    httpx_get B (searxng_endpoint SEARXNG_URL) (searxng_params query) = inl e ->
    tier1_failure B SEARXNG_URL query limit
| bad_status response :
    httpx_get B (searxng_endpoint SEARXNG_URL) (searxng_params query) = inr response ->
    status_code response <> 200%Z ->
    tier1_failure B SEARXNG_URL query limit
| bad_body response e :
    httpx_get B (searxng_endpoint SEARXNG_URL) (searxng_params query) = inr response ->
    status_code response = 200%Z ->
    searxng_items response limit = inl e ->
    tier1_failure B SEARXNG_URL query limit
| bad_item response items :
    httpx_get B (searxng_endpoint SEARXNG_URL) (searxng_params query) = inr response ->
    status_code response = 200%Z ->
    searxng_items response limit = inr items ->
    Exists (fun item => ~ is_dict item) items ->
    tier1_failure B SEARXNG_URL query limit
| empty_results response :
    httpx_get B (searxng_endpoint SEARXNG_URL) (searxng_params query) = inr response ->
    status_code response = 200%Z ->
    searxng_items response limit = inr [] ->
    tier1_failure B SEARXNG_URL query limit.

(** The second tier succeeds: the provider answers, with entries that are
    all dicts. *)
Definition tier2_succeeds (B : backends) (query : string) (limit : Z) : Prop :=
  exists items, ddgs_text B query limit = inr items /\ Forall is_dict items.

(** The second tier raises: in the call, or on an entry that is no dict. *)
Definition tier2_raises (B : backends) (query : string) (limit : Z) : Prop :=
  (exists e, ddgs_text B query limit = inl e) \/
  (exists items, ddgs_text B query limit = inr items /\
                 Exists (fun item => ~ is_dict item) items).

Definition page_of (result : CrawlResult.t) : CrawlPage.t :=
  {| CrawlPage.url := CrawlResult.url result;
     CrawlPage.markdown := markdown_text (CrawlResult.markdown result) |}.

(** the pages of the successful results, in order *)
Definition pages_of (results : list CrawlResult.t) : list CrawlPage.t :=
  page_of <$> filter (fun r => CrawlResult.success r = true) results.

Definition is_next (ev : effect) : bool :=
  match ev with Next => true | _ => false end.

(** how many results were taken from the engine's stream *)
Definition next_count (tr : list effect) : nat :=
  length (filter (fun ev => is_next ev = true) tr).

(** the items an asynchronous generator yields before it ends or raises *)
Fixpoint agen_items {A} (s : agen A) : list A :=
  match s with
  | Done | Fail _ => []
  | Yield item rest => item :: agen_items rest
  end.

(** whether the generator ends without raising *)
Fixpoint agen_ends {A} (s : agen A) : bool :=
  match s with
  | Done => true
  | Fail _ => false
  | Yield _ rest => agen_ends rest
  end.

(** The "internal" links of a result that succeeded and has link metadata. *)
Definition internal_links (result : CrawlResult.t) : list link :=
  match CrawlResult.links result with
  | Some groups =>
      if CrawlResult.success result && negb (bool_decide (groups = ∅))
      then default [] (groups !! "internal")
      else []
  | None => []
  end.

(** The normalized entries of all internal links of a stream, in the order
    met, without those whose url is empty. *)
Definition candidates (results : list CrawlResult.t) : list MapEntry.t :=
  filter (fun entry => link_truthy (MapEntry.url entry) = true)
    (map_entry <$> (results ≫= internal_links)).

(** Deduplication as the specification words it: the first occurrence of an
    entry wins and the order is that of first sight. *)
Fixpoint first_seen (entries : list MapEntry.t) : list MapEntry.t :=
  match entries with
  | [] => []
  | entry :: entries' =>
      entry :: filter (fun entry' => entry' <> entry) (first_seen entries')
  end.

(** "URL or title contains the (case-insensitive) search substring" *)
Definition entry_matches (search_lower : string) (entry : MapEntry.t) : bool :=
  match MapEntry.url entry with
  | LinkStr u =>
      contains search_lower (lower u)
      || contains search_lower (lower (MapEntry.title entry))
  | LinkDict _ => false
  end.

(** the entries kept by the optional [search] *)
Definition search_keep (search : option string) (entries : list MapEntry.t)
  : list MapEntry.t :=
  match search with
  | Some q =>
      if truthy search
      then filter (fun entry => entry_matches (lower q) entry = true) entries
      else entries
  | None => entries
  end.

Definition is_str_url (entry : MapEntry.t) : Prop :=
  match MapEntry.url entry with LinkStr _ => True | LinkDict _ => False end.

(** [entry] is not among the entries collected so far *)
Definition fresh_for (acc : list MapEntry.t) (entry : MapEntry.t) : Prop :=
  entry ∉ acc.

Global Instance fresh_for_dec acc entry : Decision (fresh_for acc entry).
Proof. unfold fresh_for. apply _. Defined.

(** ** Test doubles *)

(** An engine that answers every single-page run with [single] and every
    streamed run with the results [streamed], then the end of the stream. *)
Definition mock_engine (single : CrawlResult.t) (streamed : list CrawlResult.t)
  : engine :=
  {| arun := fun _ _ _ => inr single;
     arun_stream := fun _ _ _ => inr (agen_of_list streamed) |}.

(** A successfully rendered page with both markdown representations. *)
Definition ok_page (url raw cleaned : string) : CrawlResult.t :=
  {| CrawlResult.success := true;
     CrawlResult.error_message := None;
     CrawlResult.html := "<html>" +:+ raw +:+ "</html>";
     CrawlResult.raw_html := "<!doctype html><html>" +:+ raw +:+ "</html>";
     CrawlResult.markdown := MarkdownResult raw cleaned;
     CrawlResult.url := url;
     CrawlResult.links := None |}.

(** A page the engine reports as failed. *)
Definition failed_page (url : string) : CrawlResult.t :=
  {| CrawlResult.success := false;
     CrawlResult.error_message := Some "net::ERR_CONNECTION_REFUSED";
     CrawlResult.html := "";
     CrawlResult.raw_html := "";
     CrawlResult.markdown := MarkdownText "";
     CrawlResult.url := url;
     CrawlResult.links := None |}.

(** A page of the seed url carrying the given internal links. *)
Definition page_with_links (url : string) (internal : list link) : CrawlResult.t :=
  {| CrawlResult.success := true;
     CrawlResult.error_message := None;
     CrawlResult.html := "";
     CrawlResult.raw_html := "";
     CrawlResult.markdown := MarkdownText "";
     CrawlResult.url := url;
     CrawlResult.links := Some {[ "internal" := internal; "external" := [] ]} |}.

(** [{"href": href, "text": text}] *)
Definition anchor (href text : string) : link :=
  LinkDict {[ "href" := href; "text" := text ]}.

Definition five_pages : list CrawlResult.t :=
  [ ok_page "https://example.com/1" "one" "1";
    ok_page "https://example.com/2" "two" "2";
    ok_page "https://example.com/3" "three" "3";
    ok_page "https://example.com/4" "four" "4";
    ok_page "https://example.com/5" "five" "5" ].

(** Search backends with fixed answers. *)
Definition mock_backends (tier1 : py_exn + http_response)
    (tier2 : py_exn + list json) : backends :=
  {| httpx_get := fun _ _ => tier1;
     ddgs_text := fun _ _ => tier2 |}.

Definition ok_response (body : json) : http_response :=
  {| status_code := 200; json_body := inr body |}.

(** an entry of the aggregator's answer *)
Definition searxng_hit (url title content : string) : json :=
  JObj [("url", JStr url); ("title", JStr title); ("content", JStr content);
        ("engine", JStr "duckduckgo")].

(** an entry of the public provider's answer *)
Definition ddgs_hit (href title body : string) : json :=
  JObj [("title", JStr title); ("href", JStr href); ("body", JStr body)].

Definition three_hits : json :=
  JObj [("query", JStr "rocq");
        ("results",
         JArr [searxng_hit "https://rocq-prover.org" "Rocq" "The Rocq prover";
               searxng_hit "https://iris-project.org" "Iris" "Separation logic";
               searxng_hit "https://example.org" "Example" "An example"])].

(** an answer whose second entry is no dict *)
Definition malformed_hits : json :=
  JObj [("results",
         JArr [searxng_hit "https://rocq-prover.org" "Rocq" "The Rocq prover";
               JInt 5])].

Definition connect_error : py_exn :=
  PyExn (OtherError "ConnectError") "All connection attempts failed".

(** Handlers that all raise [e]. *)
Definition raising_handlers (e : py_exn) : Handlers.t :=
  {| Handlers.debug_action := raise e;
     Handlers.fetch_action := fun _ _ _ _ _ => raise e;
     Handlers.search_action := fun _ _ => raise e;
     Handlers.extract_action := fun _ _ => raise e;
     Handlers.screenshot_action := fun _ _ _ => raise e;
     Handlers.crawl_action := fun _ _ _ _ _ => raise e;
     Handlers.map_action := fun _ _ _ => raise e |}.

(** Handlers that all return [data], after logging the handler's name. *)
Definition returning_handlers (data : json) : Handlers.t :=
  let answer (name : string) : M effect json := ([Stderr name], inr data) in
  {| Handlers.debug_action := answer "debug";
     Handlers.fetch_action := fun _ _ _ _ _ => answer "fetch";
     Handlers.search_action := fun _ _ => answer "search";
     Handlers.extract_action := fun _ _ => answer "extract";
     Handlers.screenshot_action := fun _ _ _ => answer "screenshot";
     Handlers.crawl_action := fun _ _ _ _ _ => answer "crawl";
     Handlers.map_action := fun _ _ _ => answer "map" |}.

(** [repr] for strings without quotes, backslashes or control characters *)
Definition repr_plain (s : string) : string := "'" +:+ s +:+ "'".

(** ** debug *)

(** What [getattr(crawl4ai, "__version__", "unknown")] finds: nothing (the
    default applies), an object that itself has a [__version__] attribute
    (the submodule of that name), or any other object, known through its
    [str()], which may raise. *)
Inductive version_attr : Type :=
| AttrAbsent
| AttrModule (inner : json)
| AttrOther (rendering : py_exn + string).

(** The interpreter and the installed engine as [debug_action] sees them:
    the outcome of [from crawl4ai.__version__ import __version__], the
    package's [__version__] attribute, and [sys.version]. *)
Record runtime : Type := {
  version_import : py_exn + json;
  package_version : version_attr;
  sys_version : string
}.

Definition debug_action (R : runtime) (SEARXNG_URL : string) : M effect json :=
  let crawl4ai_version :=
    match version_import R with
    | inr v => v
    | inl _ =>
        match package_version R with
        | AttrAbsent => JStr "unknown"
        | AttrModule inner => inner
        | AttrOther (inr s) => JStr s
        | AttrOther (inl _) => JStr "unknown"
        end
    end in
  ret (JObj [("crawl4ai_version", crawl4ai_version);
             ("searxng_url", JStr (or_str (Some SEARXNG_URL) "not configured"));
             ("python_version", JStr (sys_version R))]).

(** ** extract and screenshot *)

(** Modelled from the spec: the engine's result for a run with an
    extraction strategy or with screenshot capture, with the accessors the
    two handlers read ("extracted-content JSON string, screenshot bytes");
    an accessor is [None] when the engine left it out. *)
Module CaptureResult.
Record t : Type := {
  success : bool;
  error_message : option string;
  extracted_content : option string;
  screenshot : option string
}.
End CaptureResult.

(** The runs of these two handlers, with what is put in the run
    configuration besides [cache_mode=CacheMode.BYPASS] and
    [verbose=False]: the schema of the extraction strategy, or
    [screenshot=True]. *)
Inductive capture : Type :=
| ArunExtract (url : string) (browser : BrowserConfig) (extraction_schema : json)
| ArunScreenshot (url : string) (browser : BrowserConfig).

(** The engine for these runs.  [strategy_import] is the exception, if
    any, of [from crawl4ai import JsonCssExtractionStrategy]; the answer of
    [arun_extract] stands for building the strategy from the schema and the
    run.  [json_loads] is Python's [json.loads]. *)
Record capture_engine : Type := {
  strategy_import : option py_exn;
  arun_extract : string -> BrowserConfig -> json -> py_exn + CaptureResult.t;
  arun_screenshot : string -> BrowserConfig -> py_exn + CaptureResult.t;
  json_loads : string -> py_exn + json
}.

(** [schema.items()]: only a dict has the method. *)
Definition py_items (v : json) : py_exn + list (string * json) :=
  match v with
  | JObj d => inr d
  | _ =>
      inl (PyExn AttributeError
             ("'" +:+ type_name v +:+ "' object has no attribute 'items'"))
  end.

(** one field descriptor of the engine's schema *)
Definition extraction_field (entry : string * json) : json :=
  JObj [("name", JStr (fst entry)); ("selector", snd entry); ("type", JStr "text")].

Definition extraction_schema_of (fields : list json) : json :=
  JObj [("name", JStr "extraction"); ("baseSelector", JStr "html");
        ("fields", JArr fields)].

Definition extract_action (C : capture_engine) (url : string) (schema : json)
  : M capture json :=
  (lift (match strategy_import C with
         | Some e => inl e
         | None => inr tt
         end) ;;;
   entries <- lift (py_items schema) ;;
   let fields := extraction_field <$> entries in
   let extraction_schema := extraction_schema_of fields in
   let browser_config := stealth_browser in
   emit (ArunExtract url browser_config extraction_schema) ;;;
   result <- lift (arun_extract C url browser_config extraction_schema) ;;
   if negb (CaptureResult.success result)
   then raise (PyExn Exception_
                 (or_str (CaptureResult.error_message result) "Failed to extract"))
   else
     match CaptureResult.extracted_content result with
     | Some content =>
         if truthy (Some content) then lift (json_loads C content)
         else ret (JObj [])
     | None => ret (JObj [])
     end)%py.

Definition screenshot_action (C : capture_engine) (url : string)
    (width height : Z) : M capture string :=
  let browser_config :=
    {| headless := true; browser_type := "chromium";
       enable_stealth := None; extra_args := None;
       viewport := Some (width, height) |} in
  (emit (ArunScreenshot url browser_config) ;;;
   result <- lift (arun_screenshot C url browser_config) ;;
   if negb (CaptureResult.success result)
   then raise (PyExn Exception_
                 (or_str (CaptureResult.error_message result)
                    "Failed to take screenshot"))
   else
     match CaptureResult.screenshot result with
     | Some image =>
         if truthy (Some image) then ret ("data:image/png;base64," +:+ image)
         else raise (PyExn Exception_ "No screenshot captured")
     | None => raise (PyExn Exception_ "No screenshot captured")
     end)%py.

(** ** Vocabulary of the further statements *)

(** a request object with the given action name and parameters *)
Definition request_of (name : string) (params : list (string * json))
  : list (string * json) :=
  [("action", JStr name); ("params", JObj params)].

(** The required parameters of each action, in the order [main] reads
    them. *)
Definition required_parameters : list (string * list string) :=
  [("fetch", ["url"]); ("search", ["query"]); ("extract", ["url"; "schema"]);
   ("screenshot", ["url"]); ("crawl", ["url"]); ("map", ["url"])].

(** a field of an envelope *)
Definition get_field (k : string) (envelope : json) : option json :=
  match envelope with
  | JObj d => assoc k d
  | _ => None
  end.

(** The optional parameters of an action with their default values. *)
Definition optional_defaults (name : string) : list (string * json) :=
  if bool_decide (name = "fetch") then
    [("format", JStr "markdown"); ("wait_for", JNull); ("js_code", JNull);
     ("timeout", JInt 30)]
  else if bool_decide (name = "search") then [("limit", JInt 10)]
  else if bool_decide (name = "screenshot") then
    [("width", JInt 1280); ("height", JInt 720)]
  else if bool_decide (name = "crawl") then
    [("max_pages", JInt 10); ("max_depth", JInt 2); ("strategy", JStr "bfs");
     ("url_pattern", JNull)]
  else if bool_decide (name = "map") then
    [("search", JNull); ("limit", JInt 100)]
  else [].

Definition is_http_get (ev : effect) : bool :=
  match ev with HttpGet _ _ => true | _ => false end.

(** how many times the first tier was called *)
Definition tier1_calls (tr : list effect) : nat :=
  length (filter (fun ev => is_http_get ev = true) tr).

(** the lines written to stderr *)
Definition stderr (tr : list effect) : list string :=
  omap (fun ev => match ev with Stderr l => Some l | _ => None end) tr.

(** A generator that yields the given items and then raises. *)
Fixpoint agen_failing {A} (l : list A) (e : py_exn) : agen A :=
  match l with
  | [] => Fail e
  | x :: l' => Yield x (agen_failing l' e)
  end.

(** An engine for extraction and screenshot runs with fixed answers. *)
Definition mock_capture (extracted captured : py_exn + CaptureResult.t)
    (loads : string -> py_exn + json) : capture_engine :=
  {| strategy_import := None;
     arun_extract := fun _ _ _ => extracted;
     arun_screenshot := fun _ _ => captured;
     json_loads := loads |}.

Definition captured (content image : option string) : CaptureResult.t :=
  {| CaptureResult.success := true;
     CaptureResult.error_message := None;
     CaptureResult.extracted_content := content;
     CaptureResult.screenshot := image |}.

Definition capture_failed (message : option string) : CaptureResult.t :=
  {| CaptureResult.success := false;
     CaptureResult.error_message := message;
     CaptureResult.extracted_content := None;
     CaptureResult.screenshot := None |}.

(** An engine whose every run raises [e]. *)
Definition failing_engine (e : py_exn) : engine :=
  {| arun := fun _ _ _ => inl e;
     arun_stream := fun _ _ _ => inl e |}.

(** An engine whose streamed run yields [streamed] and then raises [e]. *)
Definition interrupted_engine (streamed : list CrawlResult.t) (e : py_exn)
  : engine :=
  {| arun := fun _ _ _ => inl e;
     arun_stream := fun _ _ _ => inr (agen_failing streamed e) |}.

(** whether a string holds ASCII characters only; on such strings [lower]
    is Python's [str.lower] *)
Fixpoint is_ascii (s : string) : bool :=
  match s with
  | EmptyString => true
  | String c s' => (nat_of_ascii c <? 128)%nat && is_ascii s'
  end.

(** an entry whose url, when a string, and title are ASCII *)
Definition ascii_entry (entry : MapEntry.t) : bool :=
  match MapEntry.url entry with
  | LinkStr u => is_ascii u
  | LinkDict _ => true
  end && is_ascii (MapEntry.title entry).

(** Handlers whose debug handler is [debug_action]; the others raise. *)
Definition debug_handlers (R : runtime) (SEARXNG_URL : string) : Handlers.t :=
  {| Handlers.debug_action := debug_action R SEARXNG_URL;
     Handlers.fetch_action := fun _ _ _ _ _ => raise connect_error;
     Handlers.search_action := fun _ _ => raise connect_error;
     Handlers.extract_action := fun _ _ => raise connect_error;
     Handlers.screenshot_action := fun _ _ _ => raise connect_error;
     Handlers.crawl_action := fun _ _ _ _ _ => raise connect_error;
     Handlers.map_action := fun _ _ _ => raise connect_error |}.

(** * Proofs *)

(** ** Basic facts *)

Lemma slice_upto_nonneg {A} (k : Z) (l : list A) :
  (0 <= k)%Z -> slice_upto k l = take (Z.to_nat k) l.
Proof.
  intros Hk. unfold slice_upto.
  destruct (k <? 0)%Z eqn:E; [apply Z.ltb_lt in E; lia | reflexivity].
Qed.

Lemma slice_upto_prefix {A} (k : Z) (l : list A) : slice_upto k l `prefix_of` l.
Proof. unfold slice_upto. destruct (k <? 0)%Z; apply prefix_take. Qed.

Lemma slice_upto_length_nonneg {A} (k : Z) (l : list A) :
  (0 <= k)%Z -> (Z.of_nat (length (slice_upto k l)) <= k)%Z.
Proof.
  intros Hk. rewrite slice_upto_nonneg by done. rewrite length_take. lia.
Qed.

Example rstrip_ex : rstrip "/" "http://sx:8080//" = "http://sx:8080".
Proof. reflexivity. Qed.
Example lower_ex : lower "Docs/API" = "docs/api".
Proof. reflexivity. Qed.
Example str_int_ex : str_int (-42) = "-42" /\ str_int 0 = "0".
Proof. split; reflexivity. Qed.
Example slice_ex :
  slice_upto (-1) [1;2;3] = [1;2] /\ slice_upto 2 [1;2;3] = [1;2] /\
  slice_upto (-5) [1;2;3] = [] /\ slice_upto 0 [1;2;3] = [].
Proof. repeat split; reflexivity. Qed.
Example contains_ex : contains "docs" "/a/docs/b" = true /\ contains "x" "abc" = false.
Proof. split; reflexivity. Qed.

Section AppendEach.
Context {A B : Type} (f : A -> py_exn + B).

Lemma append_each_extends items acc :
  exists new, fst (append_each f items acc) = acc ++ new.
Proof.
  revert acc. induction items as [|item items IH]; intros acc; simpl.
  - exists []. by rewrite app_nil_r.
  - destruct (f item) as [e|r]; simpl.
    + exists []. by rewrite app_nil_r.
    + destruct (IH (acc ++ [r])) as [new Hnew].
      exists (r :: new). by rewrite Hnew, <- app_assoc.
Qed.

Lemma append_each_all_ok (P : A -> Prop) (R : A -> B -> Prop) items acc :
  (forall item, P item -> exists r, f item = inr r /\ R item r) ->
  Forall P items ->
  exists new, append_each f items acc = (acc ++ new, None) /\ Forall2 R items new.
Proof.
  intros Hf Hall. revert acc.
  induction Hall as [|item items Hitem _ IH]; intros acc; simpl.
  - exists []. by rewrite app_nil_r.
  - destruct (Hf item Hitem) as (r & -> & HR).
    destruct (IH (acc ++ [r])) as (new & -> & Hnew).
    exists (r :: new). split; [by rewrite <- app_assoc | by constructor].
Qed.

Lemma append_each_some_bad (P : A -> Prop) items acc :
  (forall item, ~ P item -> exists e, f item = inl e) ->
  Exists (fun item => ~ P item) items ->
  exists e, snd (append_each f items acc) = Some e.
Proof.
  intros Hf Hex. revert acc.
  induction Hex as [item items Hbad | item items _ IH]; intros acc; simpl.
  - destruct (Hf item Hbad) as [e ->]. by exists e.
  - destruct (f item) as [e|r]; [by exists e | apply IH].
Qed.
End AppendEach.

Lemma searxng_result_dict item :
  is_dict item ->
  exists r, searxng_result item = inr r /\ normalized_from "url" "title" "content" item r.
Proof.
  destruct item; simpl; try done. intros _.
  eexists. split; [reflexivity|]. by eexists.
Qed.

Lemma ddgs_result_dict item :
  is_dict item ->
  exists r, ddgs_result item = inr r /\ normalized_from "href" "title" "body" item r.
Proof.
  destruct item; simpl; try done. intros _.
  eexists. split; [reflexivity|]. by eexists.
Qed.

Lemma searxng_result_not_dict item :
  ~ is_dict item -> exists e, searxng_result item = inl e.
Proof. destruct item; simpl; try (intros _; by eexists). intros []; done. Qed.

Lemma ddgs_result_not_dict item :
  ~ is_dict item -> exists e, ddgs_result item = inl e.
Proof. destruct item; simpl; try (intros _; by eexists). intros []; done. Qed.

(** ** search *)

Section Search.
Context (B : backends) (query : string) (limit : Z).

Lemma ddgs_fallback_calls_once results :
  tier2_calls (trace (ddgs_fallback B query limit results)) = 1.
Proof.
  unfold ddgs_fallback, tier2_calls, trace, lift, log_error, emit, raise, ret.
  destruct (ddgs_text B query limit) as [e|items]; simpl; [done|].
  destruct (append_each ddgs_result items results) as [rs [e|]]; done.
Qed.

Lemma ddgs_fallback_succeeds results items :
  ddgs_text B query limit = inr items ->
  Forall is_dict items ->
  exists new,
    outcome (ddgs_fallback B query limit results) = inr (results ++ new) /\
    Forall2 (normalized_from "href" "title" "body") items new.
Proof.
  intros Hcall Hall.
  destruct (append_each_all_ok ddgs_result is_dict
              (normalized_from "href" "title" "body") items results
              ddgs_result_dict Hall) as (new & Heach & Hnew).
  exists new. split; [|done].
  unfold ddgs_fallback, outcome, lift. rewrite Hcall. simpl.
  by rewrite Heach.
Qed.

Lemma ddgs_fallback_raises results :
  tier2_raises B query limit ->
  outcome (ddgs_fallback B query limit results)
  = inl (PyExn Exception_ all_backends_failed).
Proof.
  unfold ddgs_fallback, outcome, lift.
  intros [[e ->] | (items & -> & Hbad)]; simpl; [done|].
  destruct (append_each_some_bad ddgs_result is_dict items results
              ddgs_result_not_dict Hbad) as [e He].
  destruct (append_each ddgs_result items results) as [rs o].
  simpl in He. by subst o.
Qed.

(** The fallback returns, or raises the one error of [search_action]. *)
Lemma ddgs_fallback_outcome results :
  (exists rs, outcome (ddgs_fallback B query limit results) = inr rs) \/
  outcome (ddgs_fallback B query limit results)
  = inl (PyExn Exception_ all_backends_failed).
Proof.
  unfold ddgs_fallback, outcome, lift.
  destruct (ddgs_text B query limit) as [e|items]; simpl; [by right|].
  destruct (append_each ddgs_result items results) as [rs [e|]]; simpl;
    [by right | left; by eexists].
Qed.

Lemma tier2_succeeds_or_raises :
  tier2_succeeds B query limit \/ tier2_raises B query limit.
Proof.
  unfold tier2_succeeds, tier2_raises.
  destruct (ddgs_text B query limit) as [e|items]; [right; left; by eexists|].
  destruct (decide (Forall is_dict items)) as [Hall|Hnot].
  - left. by eexists.
  - right. right. exists items. split; [done|].
    by apply not_Forall_Exists in Hnot; [|apply _].
Qed.

Context (SEARXNG_URL : string).

(** A failing first tier leaves its [try] block without returning. *)
Lemma tier1_failure_no_return :
  tier1_failure B SEARXNG_URL query limit ->
  exists results,
    searxng_try B SEARXNG_URL query limit = FellThrough results \/
    exists e, searxng_try B SEARXNG_URL query limit = Raised results e.
Proof.
  unfold searxng_try.
  intros [e -> | r -> Hst | r e -> Hst Hit | r items -> Hst Hit Hbad | r -> Hst Hit].
  - exists []. right. by eexists.
  - exists []. left. by apply Z.eqb_neq in Hst as ->.
  - exists []. right. exists e. apply Z.eqb_eq in Hst as ->. by rewrite Hit.
  - apply Z.eqb_eq in Hst as ->. rewrite Hit.
    destruct (append_each_some_bad searxng_result is_dict items []
                searxng_result_not_dict Hbad) as [e He].
    destruct (append_each searxng_result items []) as [rs o].
    simpl in He. subst o. exists rs. right. by eexists.
  - exists []. left. apply Z.eqb_eq in Hst as ->. by rewrite Hit.
Qed.

(** Every answer of the first tier is a failure or gives results. *)
Lemma tier1_failure_or_results :
  tier1_failure B SEARXNG_URL query limit \/
  exists response items,
    httpx_get B (searxng_endpoint SEARXNG_URL) (searxng_params query) = inr response /\
    status_code response = 200%Z /\
    searxng_items response limit = inr items /\
    Forall is_dict items /\ items <> [].
Proof.
  destruct (httpx_get B (searxng_endpoint SEARXNG_URL) (searxng_params query))
    as [e|r] eqn:Hget; [left; by eapply transport_error|].
  destruct (decide (status_code r = 200%Z)) as [Hst|Hst];
    [|left; by eapply bad_status].
  destruct (searxng_items r limit) as [e|items] eqn:Hit;
    [left; by eapply bad_body|].
  destruct (decide (Forall is_dict items)) as [Hall|Hnot].
  - destruct items as [|item items]; [left; by eapply empty_results|].
    right. exists r, (item :: items). done.
  - left. eapply bad_item; [done..|].
    by apply not_Forall_Exists in Hnot; [|apply _].
Qed.
End Search.

Lemma search_action_unconfigured B query limit :
  search_action "" B query limit = ddgs_fallback B query limit [].
Proof. reflexivity. Qed.

(** What [search_action] comes to once the first tier has not returned. *)
Lemma search_action_falls_through SEARXNG_URL B query limit :
  SEARXNG_URL <> "" ->
  tier1_failure B SEARXNG_URL query limit ->
  exists results,
    outcome (search_action SEARXNG_URL B query limit)
    = outcome (ddgs_fallback B query limit results) /\
    tier2_calls (trace (search_action SEARXNG_URL B query limit)) = 1.
Proof.
  intros Hcfg Hfail.
  destruct (tier1_failure_no_return B query limit SEARXNG_URL Hfail)
    as (results & [Htry | [e Htry]]);
    exists results; unfold search_action, truthy; rewrite bool_decide_eq_false_2 by done;
    rewrite Htry;
    pose proof (ddgs_fallback_calls_once B query limit results) as Hone;
    destruct (ddgs_fallback B query limit results) as [tr r];
    unfold tier2_calls, trace, outcome in *; simpl in *; done.
Qed.

(** C1 (amended): with the first tier configured, an HTTP 200 answer whose
    first [limit] entries ([results[:limit]]) are all normalizable and at least
    one in number makes [search_action] return exactly those entries, each
    normalized to url/title/snippet from the entry's url/title/content, and
    the second tier is not called (the only effect is the one GET); with the
    first tier unconfigured the second tier is called exactly once. *)
Theorem search_tier1_results_win :
  forall (SEARXNG_URL : string) (B : backends) (query : string) (limit : Z),
    (SEARXNG_URL <> "" ->
     forall response d items,
       httpx_get B (searxng_endpoint SEARXNG_URL) (searxng_params query)
       = inr response ->
       status_code response = 200%Z ->
       json_body response = inr (JObj d) ->
       default (JArr []) (assoc "results" d) = JArr items ->
       Forall is_dict (slice_upto limit items) ->
       slice_upto limit items <> [] ->
       exists results,
         outcome (search_action SEARXNG_URL B query limit) = inr results /\
         Forall2 (normalized_from "url" "title" "content")
           (slice_upto limit items) results /\
         ((0 <= limit)%Z -> slice_upto limit items = take (Z.to_nat limit) items) /\
         trace (search_action SEARXNG_URL B query limit)
         = [HttpGet (searxng_endpoint SEARXNG_URL) (searxng_params query)] /\
         tier2_calls (trace (search_action SEARXNG_URL B query limit)) = 0) /\
    (SEARXNG_URL = "" ->
     tier2_calls (trace (search_action SEARXNG_URL B query limit)) = 1).
Proof.
  intros SEARXNG_URL B query limit. split.
  - intros Hcfg response d items Hget Hst Hbody Hres Hall Hne.
    destruct (append_each_all_ok searxng_result is_dict
                (normalized_from "url" "title" "content")
                (slice_upto limit items) [] searxng_result_dict Hall)
      as (results & Heach & Hnorm).
    simpl in Heach. exists results.
    assert (Htry : searxng_try B SEARXNG_URL query limit = Returned results).
    { unfold searxng_try. rewrite Hget.
      apply Z.eqb_eq in Hst as ->.
      unfold searxng_items. rewrite Hbody. simpl. rewrite Hres. simpl.
      rewrite Heach. destruct results; [|done].
      apply Forall2_nil_inv_r in Hnorm. done. }
    unfold search_action, truthy. rewrite bool_decide_eq_false_2 by done.
    rewrite Htry. repeat split; try done.
    apply slice_upto_nonneg.
  - intros ->. rewrite search_action_unconfigured.
    apply ddgs_fallback_calls_once.
Qed.

(** C2: with the first tier configured, each of its failures (an exception
    from the call, a status other than 200, a body that cannot be read, an
    entry that cannot be normalized, an empty result set) leads to exactly
    one call of the second tier; when the second tier succeeds the call
    returns (what the first tier had collected, then the second tier's
    entries), and the only error the call can raise is the one raised when
    the second tier raises too. *)
Theorem search_tier1_failure_isolated :
  forall (SEARXNG_URL : string) (B : backends) (query : string) (limit : Z),
    SEARXNG_URL <> "" ->
    tier1_failure B SEARXNG_URL query limit ->
    tier2_calls (trace (search_action SEARXNG_URL B query limit)) = 1 /\
    (forall items,
       ddgs_text B query limit = inr items -> Forall is_dict items ->
       exists collected new,
         outcome (search_action SEARXNG_URL B query limit) = inr (collected ++ new) /\
         Forall2 (normalized_from "href" "title" "body") items new) /\
    (forall err,
       outcome (search_action SEARXNG_URL B query limit) = inl err ->
       ~ tier2_succeeds B query limit /\
       err = PyExn Exception_ all_backends_failed).
Proof.
  intros SEARXNG_URL B query limit Hcfg Hfail.
  destruct (search_action_falls_through SEARXNG_URL B query limit Hcfg Hfail)
    as (collected & -> & Hone).
  split; [done|]. split.
  - intros items Hcall Hall. exists collected.
    by apply ddgs_fallback_succeeds.
  - intros err Herr. split.
    + intros (items & Hcall & Hall).
      destruct (ddgs_fallback_succeeds B query limit collected items Hcall Hall)
        as (new & Hok & _).
      congruence.
    + destruct (ddgs_fallback_outcome B query limit collected) as [[rs Hok]|Hbad];
        congruence.
Qed.

(** C8: when the first tier gives no results (unconfigured, or any of its
    failures) and the second tier raises, [search_action] raises an
    [Exception] whose message mentions "search backends" and tells to
    configure SEARXNG_URL. *)
Theorem search_all_backends_failed :
  forall (SEARXNG_URL : string) (B : backends) (query : string) (limit : Z),
    SEARXNG_URL = "" \/ tier1_failure B SEARXNG_URL query limit ->
    tier2_raises B query limit ->
    exists msg,
      outcome (search_action SEARXNG_URL B query limit) = inl (PyExn Exception_ msg) /\
      contains "search backends" msg = true /\
      contains "Configure SEARXNG_URL" msg = true.
Proof.
  intros SEARXNG_URL B query limit Htier1 Htier2.
  exists all_backends_failed. split; [|split; reflexivity].
  destruct (decide (SEARXNG_URL = "")) as [->|Hcfg].
  - rewrite search_action_unconfigured. by apply ddgs_fallback_raises.
  - destruct Htier1 as [?|Hfail]; [done|].
    destruct (search_action_falls_through SEARXNG_URL B query limit Hcfg Hfail)
      as (collected & -> & _).
    by apply ddgs_fallback_raises.
Qed.


(** ** crawl *)

Lemma outcome_emit {E A} (ev : E) (m : M E A) :
  outcome (bind (emit ev) (fun _ => m)) = outcome m.
Proof. unfold outcome, bind, emit. by destruct m. Qed.

Lemma trace_emit {E A} (ev : E) (m : M E A) :
  trace (bind (emit ev) (fun _ => m)) = ev :: trace m.
Proof. unfold trace, bind, emit. by destruct m. Qed.

Arguments bind {E A B} m k : simpl never.
Arguments emit {E} ev : simpl never.

Lemma crawl_loop_yield max_pages result rest pages :
  crawl_loop max_pages (Yield result rest) pages
  = bind (emit Next) (fun _ =>
      if CrawlResult.success result then
        if (Z.of_nat (length (pages ++ [page_of result])) >=? max_pages)%Z
        then ret (pages ++ [page_of result])
        else crawl_loop max_pages rest (pages ++ [page_of result])
      else crawl_loop max_pages rest pages).
Proof. reflexivity. Qed.

Lemma next_count_Next tr : next_count (Next :: tr) = S (next_count tr).
Proof. reflexivity. Qed.

Lemma geb_false (x y : Z) : (x >=? y)%Z = false <-> (x < y)%Z.
Proof. rewrite Z.geb_leb. apply Z.leb_gt. Qed.

Lemma geb_true (x y : Z) : (x >=? y)%Z = true <-> (y <= x)%Z.
Proof. rewrite Z.geb_leb. apply Z.leb_le. Qed.

Lemma pages_of_cons result results :
  pages_of (result :: results)
  = if CrawlResult.success result
    then page_of result :: pages_of results
    else pages_of results.
Proof.
  unfold pages_of. rewrite filter_cons.
  destruct (CrawlResult.success result); by case_decide.
Qed.

(** The accumulated list never exceeds the larger of the ceiling and one
    page more than it started with: the test comes after the append. *)
Lemma crawl_loop_ceiling max_pages results pages out :
  outcome (crawl_loop max_pages results pages) = inr out ->
  (Z.of_nat (length out) <= Z.max max_pages (Z.of_nat (length pages) + 1))%Z.
Proof.
  revert pages. induction results as [|result rest IH|e]; intros pages.
  - unfold outcome; simpl. intros [= <-]. lia.
  - rewrite crawl_loop_yield, outcome_emit. destruct (CrawlResult.success result).
    + destruct (Z.of_nat _ >=? max_pages)%Z eqn:Hfull.
      * unfold outcome; simpl. intros [= <-].
        rewrite length_app. simpl. lia.
      * intros Hout%IH. apply geb_false in Hfull.
        rewrite length_app in Hout, Hfull. simpl in *. lia.
    + intros Hout%IH. lia.
  - unfold outcome; simpl. done.
Qed.

(** With a ceiling of at least one page, on a stream that ends: the pages
    of the first successes up to the ceiling. *)
Lemma crawl_loop_take max_pages results pages :
  (Z.of_nat (length pages) < max_pages)%Z ->
  outcome (crawl_loop max_pages (agen_of_list results) pages)
  = inr (pages ++ take (Z.to_nat (max_pages - Z.of_nat (length pages)))
                       (pages_of results)).
Proof.
  revert pages. induction results as [|result rest IH]; intros pages Hlt;
    cbn [agen_of_list].
  - unfold outcome, pages_of; simpl. by rewrite firstn_nil, app_nil_r.
  - rewrite crawl_loop_yield, outcome_emit, pages_of_cons.
    destruct (CrawlResult.success result); [|by apply IH].
    replace (Z.to_nat (max_pages - Z.of_nat (length pages)))
      with (S (Z.to_nat (max_pages - Z.of_nat (length (pages ++ [page_of result])))))
      by (rewrite length_app; simpl; lia).
    destruct (Z.of_nat _ >=? max_pages)%Z eqn:Hfull.
    + apply geb_true in Hfull. unfold outcome; simpl.
      replace (Z.to_nat _) with 0%nat by lia. by rewrite take_0.
    + apply geb_false in Hfull. rewrite IH by done.
      simpl. by rewrite <- app_assoc.
Qed.

(** The results taken from the stream are a prefix of it that holds exactly
    the returned pages, and if the loop stopped before the end of the stream
    then the ceiling was reached by the last result taken. *)
Lemma crawl_loop_consumed max_pages results pages :
  (Z.of_nat (length pages) < max_pages)%Z ->
  let run := crawl_loop max_pages (agen_of_list results) pages in
  let n := next_count (trace run) in
  n <= length results /\
  outcome run = inr (pages ++ pages_of (take n results)) /\
  (n < length results ->
   Z.of_nat (length (pages ++ pages_of (take n results))) = max_pages /\
   (Z.of_nat (length (pages ++ pages_of (take (pred n) results))) < max_pages)%Z).
Proof.
  revert pages. induction results as [|result rest IH]; intros pages Hlt;
    cbn [agen_of_list].
  - unfold next_count, outcome; simpl. rewrite app_nil_r. repeat split; [lia..].
  - cbn zeta. rewrite crawl_loop_yield, outcome_emit, trace_emit.
    rewrite next_count_Next. cbn [take Nat.pred length].
    rewrite pages_of_cons.
    destruct (CrawlResult.success result) eqn:Hsucc.
    + destruct (Z.of_nat _ >=? max_pages)%Z eqn:Hfull.
      * apply geb_true in Hfull. unfold next_count, trace, outcome; simpl.
        rewrite take_0. unfold pages_of; simpl.
        rewrite !length_app in *. simpl in *.
        split; [lia|]. split; [done|]. intros _. lia.
      * apply geb_false in Hfull.
        destruct (IH _ Hfull) as (Hle & Hout & Hstop).
        rewrite Hout, <- !app_assoc. simpl.
        split; [lia|]. split; [done|]. intros Hn%Nat.succ_lt_mono.
        destruct (Hstop Hn) as [Hreach Hbefore].
        rewrite <- app_assoc in Hreach. split; [done|].
        destruct (next_count _) as [|m] eqn:Hm.
        -- rewrite take_0 in *. unfold pages_of in *; simpl in *.
           rewrite !length_app in *. simpl in *. lia.
        -- simpl in *. rewrite pages_of_cons, Hsucc.
           by rewrite <- app_assoc in Hbefore.
    + destruct (IH _ Hlt) as (Hle & Hout & Hstop).
      rewrite Hout.
      split; [lia|]. split; [done|]. intros Hn%Nat.succ_lt_mono.
      destruct (Hstop Hn) as [Hreach Hbefore]. split; [done|].
      destruct (next_count _) as [|m] eqn:Hm.
      -- rewrite take_0 in *. unfold pages_of in *; simpl in *.
         rewrite !app_nil_r in *. lia.
      -- simpl in *. by rewrite pages_of_cons, Hsucc.
Qed.

Lemma crawl_action_run (E : engine) url max_pages max_depth strategy url_pattern :
  exists browser_config run_config,
    crawl_action E url max_pages max_depth strategy url_pattern
    = bind (emit (Arun url browser_config run_config)) (fun _ =>
        bind (lift (arun_stream E url browser_config run_config)) (fun results =>
          crawl_loop max_pages results [])).
Proof. by eexists _, _. Qed.

Lemma outcome_lift_bind {E A B} (r : py_exn + A) (k : A -> M E B) b :
  outcome (bind (lift r) k) = inr b ->
  exists a, r = inr a /\ outcome (k a) = inr b.
Proof.
  unfold outcome, bind, lift. destruct r as [e|a]; simpl; [done|].
  destruct (k a) eqn:Hk. simpl. intros ->. exists a. by rewrite Hk.
Qed.

(** With a ceiling of at least one page, [crawl_action] returns at most
    [max_pages] pages, whatever the engine streams. *)
Lemma crawl_action_at_most_max_pages
    (E : engine) url max_pages max_depth strategy url_pattern pages :
  (1 <= max_pages)%Z ->
  outcome (crawl_action E url max_pages max_depth strategy url_pattern) = inr pages ->
  (Z.of_nat (length pages) <= max_pages)%Z.
Proof.
  intros Hpos.
  destruct (crawl_action_run E url max_pages max_depth strategy url_pattern)
    as (bc & rc & ->).
  rewrite outcome_emit. intros (results & _ & Hloop)%outcome_lift_bind.
  apply crawl_loop_ceiling in Hloop. simpl in Hloop. lia.
Qed.

(** The same for any ceiling: at most [max_pages] pages, or one page. *)
Lemma crawl_action_at_most_one_more
    (E : engine) url max_pages max_depth strategy url_pattern pages :
  outcome (crawl_action E url max_pages max_depth strategy url_pattern) = inr pages ->
  (Z.of_nat (length pages) <= Z.max max_pages 1)%Z.
Proof.
  destruct (crawl_action_run E url max_pages max_depth strategy url_pattern)
    as (bc & rc & ->).
  rewrite outcome_emit. intros (results & _ & Hloop)%outcome_lift_bind.
  by apply crawl_loop_ceiling in Hloop.
Qed.

(** With a ceiling of at least one page and a stream that ends, the pages
    returned are those of the first [max_pages] successful results: failed
    results are passed over and do not count. *)
Lemma crawl_action_first_successes
    (E : engine) url max_pages max_depth strategy url_pattern results :
  (1 <= max_pages)%Z ->
  (forall browser_config run_config,
     arun_stream E url browser_config run_config = inr (agen_of_list results)) ->
  outcome (crawl_action E url max_pages max_depth strategy url_pattern)
  = inr (take (Z.to_nat max_pages) (pages_of results)).
Proof.
  intros Hpos Hrun.
  destruct (crawl_action_run E url max_pages max_depth strategy url_pattern)
    as (bc & rc & ->).
  rewrite outcome_emit, Hrun.
  change (bind (lift (inr ?s)) ?k) with (bind (@ret effect _ s) k).
  unfold bind at 1, ret. simpl.
  destruct (crawl_loop _ _ _) as [tr r] eqn:Hloop.
  pose proof (crawl_loop_take max_pages results [] ltac:(simpl; lia)) as Htake.
  rewrite Hloop in Htake. unfold outcome in *. simpl in *.
  by rewrite Z.sub_0_r in Htake.
Qed.

(** The scenario of the specification: a ceiling of 3 on a stream of 5
    successful pages gives the first 3, and 3 results are taken from the
    stream. *)
Lemma crawl_three_of_five :
  let run := crawl_action (mock_engine (failed_page "") five_pages)
               "https://example.com/" 3 2 "bfs" None in
  outcome run = inr (take 3 (pages_of five_pages)) /\
  next_count (trace run) = 3.
Proof. split; reflexivity. Qed.

(** A failed page in the stream is taken from it and left out. *)
Lemma crawl_skips_failed_page :
  let run := crawl_action
               (mock_engine (failed_page "")
                  (failed_page "https://example.com/0" :: five_pages))
               "https://example.com/" 3 2 "dfs" (Some "*/docs/*") in
  outcome run = inr (take 3 (pages_of five_pages)) /\
  next_count (trace run) = 4.
Proof. split; reflexivity. Qed.

(** C3 (where the code departs from it): with a ceiling of 0 the first
    successful page of the stream is still appended and returned, since the
    ceiling is tested only after an append; one result is taken from the
    stream. *)
Theorem crawl_zero_ceiling_keeps_one_page :
  let run := crawl_action (mock_engine (failed_page "") five_pages)
               "https://example.com/" 0 2 "bfs" None in
  outcome run
  = inr [ {| CrawlPage.url := "https://example.com/1";
             CrawlPage.markdown := "one" |} ] /\
  next_count (trace run) = 1.
Proof. split; reflexivity. Qed.

(** ** fetch *)

(** Every [format] other than "html" and "raw" takes the markdown path,
    which gives [raw_markdown] when the markdown object has it. *)
Lemma fetch_action_markdown_path
    (E : engine) url format wait_for js_code timeout result :
  (forall browser_config run_config,
     arun E url browser_config run_config = inr result) ->
  CrawlResult.success result = true ->
  format <> "html" -> format <> "raw" ->
  outcome (fetch_action E url format wait_for js_code timeout)
  = inr (markdown_text (CrawlResult.markdown result)).
Proof.
  intros Hrun Hsucc Hhtml Hraw. unfold fetch_action.
  rewrite outcome_emit, Hrun. unfold outcome, bind, lift. simpl.
  rewrite Hsucc. simpl.
  by rewrite !bool_decide_eq_false_2.
Qed.

Lemma fetch_action_html_path
    (E : engine) url wait_for js_code timeout result :
  (forall browser_config run_config,
     arun E url browser_config run_config = inr result) ->
  CrawlResult.success result = true ->
  outcome (fetch_action E url "html" wait_for js_code timeout)
  = inr (CrawlResult.html result).
Proof.
  intros Hrun Hsucc. unfold fetch_action.
  rewrite outcome_emit, Hrun. unfold outcome, bind, lift. simpl.
  by rewrite Hsucc.
Qed.

(** C4 (where the code departs from it): for a result that supplies both a
    raw and a cleaned markdown representation, [format="markdown"] returns
    the raw one. *)
Theorem fetch_markdown_returns_raw_markdown :
  forall (url : string) (wait_for js_code : option string) (timeout : Z)
         (raw cleaned : string),
    outcome (fetch_action (mock_engine (ok_page url raw cleaned) [])
               url "markdown" wait_for js_code timeout)
    = inr raw.
Proof.
  intros url wait_for js_code timeout raw cleaned.
  by rewrite (fetch_action_markdown_path _ _ _ _ _ _ (ok_page url raw cleaned)).
Qed.

(** ** map *)

Lemma filter_first_seen (P : MapEntry.t -> Prop) `{!forall x, Decision (P x)}
    (entries : list MapEntry.t) :
  filter P (first_seen entries) = first_seen (filter P entries).
Proof.
  induction entries as [|entry entries IH]; [done|]. simpl.
  rewrite !filter_cons. case_decide as HP; simpl.
  - f_equal. rewrite <- IH, !list_filter_filter.
    apply list_filter_iff. tauto.
  - rewrite <- IH, list_filter_filter.
    apply list_filter_iff. intros x. split; [tauto|].
    intros HPx. split; [done|]. by intros ->.
Qed.

Lemma first_seen_elem_of entry entries :
  entry ∈ first_seen entries <-> entry ∈ entries.
Proof.
  induction entries as [|entry' entries IH]; [done|]. simpl.
  rewrite !elem_of_cons, list_elem_of_filter, IH.
  destruct (decide (entry = entry')); tauto.
Qed.

Lemma first_seen_NoDup entries : NoDup (first_seen entries).
Proof.
  induction entries as [|entry entries IH]; simpl; constructor.
  - rewrite list_elem_of_filter. tauto.
  - by apply NoDup_filter.
Qed.

Lemma first_seen_sublist entries : first_seen entries `sublist_of` entries.
Proof.
  induction entries as [|entry entries IH]; [done|]. simpl.
  apply sublist_skip. etrans; [apply sublist_filter|done].
Qed.

(** The inner loop is first-seen deduplication of the new entries. *)
Lemma foldl_collect_link acc (links : list link) :
  foldl collect_link acc links
  = acc ++ first_seen
             (filter (fresh_for acc)
                (filter (fun entry => link_truthy (MapEntry.url entry) = true)
                   (map_entry <$> links))).
Proof.
  revert acc. induction links as [|l links IH]; intros acc; simpl.
  { by rewrite app_nil_r. }
  rewrite filter_cons.
  destruct (link_truthy (MapEntry.url (map_entry l))) eqn:Htruthy.
  - rewrite decide_True by done. rewrite filter_cons.
    destruct (decide (fresh_for acc (map_entry l))) as [Hfresh|Hseen].
    + assert (collect_link acc l = acc ++ [map_entry l]) as ->.
      { unfold collect_link. rewrite Htruthy.
        by rewrite bool_decide_eq_false_2. }
      rewrite IH, <- app_assoc. simpl. do 2 f_equal.
      rewrite filter_first_seen. f_equal.
      rewrite (list_filter_filter (fun x => x <> map_entry l) (fresh_for acc)).
      apply list_filter_iff. intros x. unfold fresh_for.
      rewrite not_elem_of_app, list_elem_of_singleton. tauto.
    + assert (collect_link acc l = acc) as ->; [|apply IH].
      unfold collect_link. rewrite Htruthy.
      unfold fresh_for in Hseen. apply dec_stable in Hseen.
      by rewrite bool_decide_eq_true_2.
  - rewrite decide_False by done.
    assert (collect_link acc l = acc) as ->; [|apply IH].
    unfold collect_link. by rewrite Htruthy.
Qed.

Lemma collect_result_internal acc result :
  collect_result acc result = foldl collect_link acc (internal_links result).
Proof.
  unfold collect_result, internal_links.
  destruct (CrawlResult.links result) as [groups|]; [|done].
  by destruct (CrawlResult.success result && negb (bool_decide (groups = ∅))).
Qed.

Lemma foldl_collect_result acc (results : list CrawlResult.t) :
  foldl collect_result acc results
  = foldl collect_link acc (results ≫= internal_links).
Proof.
  revert acc. induction results as [|result results IH]; intros acc; [done|].
  simpl. by rewrite foldl_app, IH, collect_result_internal.
Qed.

Lemma map_loop_yield result rest links :
  map_loop (Yield result rest) links
  = bind (emit Next) (fun _ => map_loop rest (collect_result links result)).
Proof. reflexivity. Qed.

Lemma map_loop_outcome (results : agen CrawlResult.t) links out :
  outcome (map_loop results links) = inr out ->
  agen_ends results = true /\
  out = foldl collect_result links (agen_items results).
Proof.
  revert links. induction results as [|result rest IH|e]; intros links.
  - unfold outcome; simpl. by intros [= <-].
  - rewrite map_loop_yield, outcome_emit. apply IH.
  - done.
Qed.

Lemma map_loop_ends (results : agen CrawlResult.t) links :
  agen_ends results = true ->
  outcome (map_loop results links)
  = inr (foldl collect_result links (agen_items results)).
Proof.
  revert links. induction results as [|result rest IH|e]; intros links Hends.
  - done.
  - rewrite map_loop_yield, outcome_emit. by apply IH.
  - done.
Qed.

Lemma search_filter_cons_str search_lower lnk links u :
  MapEntry.url lnk = LinkStr u ->
  search_filter search_lower (lnk :: links)
  = match search_filter search_lower links with
    | inl e => inl e
    | inr kept => inr (if entry_matches search_lower lnk then lnk :: kept else kept)
    end.
Proof. intros Hurl. simpl. unfold entry_matches. by rewrite Hurl. Qed.

Lemma filter_cons_matches search_lower lnk (links : list MapEntry.t) :
  filter (fun entry => entry_matches search_lower entry = true) (lnk :: links)
  = if entry_matches search_lower lnk
    then lnk :: filter (fun entry => entry_matches search_lower entry = true) links
    else filter (fun entry => entry_matches search_lower entry = true) links.
Proof. rewrite filter_cons. destruct (entry_matches _ _); by case_decide. Qed.

Lemma search_filter_ok search_lower links kept :
  search_filter search_lower links = inr kept ->
  kept = filter (fun entry => entry_matches search_lower entry = true) links.
Proof.
  revert kept. induction links as [|lnk links IH]; intros kept.
  { by intros [= <-]. }
  destruct (MapEntry.url lnk) as [u|d] eqn:Hurl.
  - rewrite (search_filter_cons_str _ _ _ u Hurl), filter_cons_matches.
    destruct (search_filter search_lower links) as [e|kept']; [done|].
    intros [= <-]. by rewrite <- (IH kept' eq_refl).
  - simpl. by rewrite Hurl.
Qed.

Lemma search_filter_str_urls search_lower links :
  Forall is_str_url links ->
  search_filter search_lower links
  = inr (filter (fun entry => entry_matches search_lower entry = true) links).
Proof.
  induction 1 as [|lnk links Hstr _ IH]; [done|].
  unfold is_str_url in Hstr.
  destruct (MapEntry.url lnk) as [u|d] eqn:Hurl; [|done].
  by rewrite (search_filter_cons_str _ _ _ u Hurl), filter_cons_matches, IH.
Qed.

Lemma outcome_bind {E A B} (m : M E A) (k : A -> M E B) b :
  outcome (bind m k) = inr b ->
  exists a, outcome m = inr a /\ outcome (k a) = inr b.
Proof.
  unfold outcome, bind. destruct m as [tr [e|a]]; simpl; [done|].
  destruct (k a) eqn:Hk. simpl. intros ->. exists a. by rewrite Hk.
Qed.

Lemma collected_first_seen (results : list CrawlResult.t) :
  foldl collect_result [] results = first_seen (candidates results).
Proof.
  rewrite foldl_collect_result, foldl_collect_link. simpl.
  f_equal. unfold candidates.
  apply list_filter_filter_r. intros entry _. unfold fresh_for. apply not_elem_of_nil.
Qed.

Lemma search_step_keep search (links kept : list MapEntry.t) :
  outcome (E:=effect)
    match search, links with
    | Some q, _ :: _ =>
        if truthy search then lift (search_filter (lower q) links) else ret links
    | _, _ => ret links
    end = inr kept ->
  kept = search_keep search links.
Proof.
  unfold search_keep.
  destruct search as [q|]; [|by destruct links; intros [= <-]].
  destruct links as [|lnk links].
  { intros [= <-]. by destruct (truthy (Some q)). }
  destruct (truthy (Some q)); [|by intros [= <-]].
  unfold outcome, lift. cbn [snd]. apply search_filter_ok.
Qed.

Lemma search_keep_sublist search entries :
  search_keep search entries `sublist_of` entries.
Proof.
  unfold search_keep. destruct search as [q|]; [|done].
  destruct (truthy (Some q)); [apply sublist_filter|done].
Qed.

Lemma slice_upto_sublist {A} (k : Z) (l : list A) : slice_upto k l `sublist_of` l.
Proof. unfold slice_upto. destruct (k <? 0)%Z; apply sublist_take. Qed.

(** What [map_action] returns, when it returns: the engine's stream ended,
    and the result is the first [limit] of the entries kept by [search]
    among the first-seen deduplication of the collected entries. *)
Lemma map_action_returns (E : engine) url search limit out :
  outcome (map_action E url search limit) = inr out ->
  exists browser_config run_config results,
    arun_stream E url browser_config run_config = inr results /\
    agen_ends results = true /\
    out = slice_upto limit
            (search_keep search (first_seen (candidates (agen_items results)))).
Proof.
  unfold map_action. rewrite outcome_emit.
  intros (results & Hrun & Hrest)%outcome_lift_bind.
  apply outcome_bind in Hrest as (links & Hloop & Hrest).
  apply outcome_bind in Hrest as (kept & Hkeep & Hret).
  apply map_loop_outcome in Hloop as [Hends ->].
  apply search_step_keep in Hkeep as ->.
  injection Hret as <-. rewrite collected_first_seen.
  by eexists _, _, results.
Qed.

(** C5 (as stated, it fails): two links with the same url and different
    titles are both in the output, so the urls of the output are not
    pairwise distinct. *)
Lemma map_same_url_kept_twice :
  let out := [ {| MapEntry.url := LinkStr "/a"; MapEntry.title := "A" |};
               {| MapEntry.url := LinkStr "/a"; MapEntry.title := "Another" |} ] in
  outcome (map_action
             (mock_engine (failed_page "")
                [page_with_links "https://example.com"
                   [anchor "/a" "A"; anchor "/a" "Another"]])
             "https://example.com" None 100)
  = inr out /\
  ~ NoDup (MapEntry.url <$> out).
Proof.
  split; [reflexivity|].
  intros Hnodup. apply NoDup_cons in Hnodup as [Hnotin _].
  apply Hnotin. by left.
Qed.

(** C5 (amended): the entries are deduplicated by equality of the whole
    normalized entry, url and title together.  Whenever [map_action]
    returns, its output has no two equal entries; it is the first [limit] of
    the entries kept by [search] in the first-seen deduplication of the
    collected entries, so it lists them in first-seen order; and every
    collected entry, whatever url it shares with another, is in that
    deduplication. *)
Theorem map_dedup_by_whole_entry :
  forall (E : engine) (url : string) (search : option string) (limit : Z)
         (out : list MapEntry.t),
    outcome (map_action E url search limit) = inr out ->
    exists browser_config run_config results,
      arun_stream E url browser_config run_config = inr results /\
      let collected := candidates (agen_items results) in
      out = slice_upto limit (search_keep search (first_seen collected)) /\
      NoDup out /\
      out `sublist_of` collected /\
      (forall entry, entry ∈ collected <-> entry ∈ first_seen collected).
Proof.
  intros E url search limit out
    (bc & rc & results & Hrun & _ & ->)%map_action_returns.
  exists bc, rc, results. split; [done|]. cbn zeta.
  assert (slice_upto limit
            (search_keep search (first_seen (candidates (agen_items results))))
          `sublist_of` first_seen (candidates (agen_items results))) as Hsub.
  { etrans; [apply slice_upto_sublist|apply search_keep_sublist]. }
  split; [done|]. split; [|split].
  - eapply sublist_NoDup; [apply first_seen_NoDup|done].
  - etrans; [done|apply first_seen_sublist].
  - intros entry. by rewrite first_seen_elem_of.
Qed.

(** C6: the scenario.  Four internal links, the second a repetition of the
    first, and [limit=2]: the output is the entries of "/a" and "/b". *)
Theorem map_scenario_limit_two :
  forall (E : engine) (url : string),
    (forall browser_config run_config,
       arun_stream E url browser_config run_config
       = inr (agen_of_list
                [page_with_links url
                   [anchor "/a" "A"; anchor "/a" "A"; anchor "/b" "B";
                    anchor "/c" "C"]])) ->
    outcome (map_action E url None 2)
    = inr [ {| MapEntry.url := LinkStr "/a"; MapEntry.title := "A" |};
            {| MapEntry.url := LinkStr "/b"; MapEntry.title := "B" |} ].
Proof.
  intros E url Hrun. unfold map_action.
  rewrite outcome_emit, Hrun. reflexivity.
Qed.

(** ** The dispatcher *)

Lemma eq_str_false action name : action <> JStr name -> eq_str action name = false.
Proof.
  destruct action; simpl; try done.
  intros Hne. apply bool_decide_eq_false_2. congruence.
Qed.

Lemma eq_str_true action name : eq_str action name = true -> action = JStr name.
Proof.
  destruct action; simpl; try done.
  by intros ->%bool_decide_eq_true_1.
Qed.

Lemma bind_lift_inr {E A B} (a : A) (k : A -> M E B) :
  bind (lift (inr a)) k = k a.
Proof. unfold bind, lift. by destruct (k a). Qed.

Lemma bind_lift_inl {E A B} (e : py_exn) (k : A -> M E B) :
  bind (lift (inl e)) k = raise e.
Proof. reflexivity. Qed.

(** [dispatch] is: read the arguments, call the selected handler, write its
    data; or, with no handler selected, write the unknown-action error. *)
Lemma dispatch_handler_call repr_str H action params :
  dispatch repr_str H action params
  = match handler_call H action params with
    | inl e => raise e
    | inr (Some call) =>
        bind (run_handler call) (fun data => respond true data None)
    | inr None =>
        respond false JNull (Some ("Unknown action: " +:+ py_str repr_str action))
    end.
Proof.
  unfold dispatch, handler_call.
  repeat (destruct (eq_str action _); [
    repeat match goal with
      | |- context [py_getitem ?p ?k] => destruct (py_getitem p k)
      | |- context [py_get ?p ?k ?d] => destruct (py_get p k d)
      end; rewrite ?bind_lift_inr, ?bind_lift_inl; reflexivity |]).
  reflexivity.
Qed.

Lemma stdout_effects (tr : list effect) : stdout (Effect <$> tr) = [].
Proof. induction tr; [done|]. done. Qed.

Lemma stdout_app (tr tr' : list io) : stdout (tr ++ tr') = stdout tr ++ stdout tr'.
Proof. apply omap_app. Qed.

Lemma stdout_effects_then (tr : list effect) (line : json) :
  stdout ((Effect <$> tr) ++ [Stdout line]) = [line].
Proof. by rewrite stdout_app, stdout_effects. Qed.

Lemma main_handles repr_str H stdin :
  main repr_str H stdin
  = try_except (bind (lift stdin) (serve repr_str H))
      (fun e => respond false JNull (Some (error_text e))).
Proof.
  unfold main, error_text, try_except.
  destruct (bind _ _) as [tr [e|[]]]; [|done].
  by destruct (is_JSONDecodeError e).
Qed.

(** What [main] does with a decoded request object, by the handler call
    that the request selects. *)
Lemma main_object repr_str H d :
  main repr_str H (inr (JObj d))
  = match handler_call H (request_action d) (request_params d) with
    | inl e => respond false JNull (Some (error_text e))
    | inr (Some call) =>
        match outcome call with
        | inl e =>
            ((Effect <$> trace call)
               ++ [Stdout (envelope false JNull (Some (error_text e)))], inr tt)
        | inr data =>
            ((Effect <$> trace call) ++ [Stdout (envelope true data None)], inr tt)
        end
    | inr None =>
        respond false JNull
          (Some ("Unknown action: " +:+ py_str repr_str (request_action d)))
    end.
Proof.
  rewrite main_handles, bind_lift_inr. unfold serve. simpl py_get.
  rewrite !bind_lift_inr.
  fold (request_action d) (request_params d).
  rewrite dispatch_handler_call.
  by destruct (handler_call H _ _) as [e|[[tr [e|data]]|]].
Qed.

(** What [main] does with a document that is no object, or with no
    document. *)
Lemma main_not_object repr_str H stdin :
  (forall d, stdin <> inr (JObj d)) ->
  exists e, main repr_str H stdin = respond false JNull (Some (error_text e)).
Proof.
  intros Hno. rewrite main_handles.
  destruct stdin as [e|request]; [by exists e|].
  rewrite bind_lift_inr. unfold serve.
  destruct request; try (by eexists); by destruct (Hno fields).
Qed.

(** [main] writes exactly one envelope, after the handler's effects: a
    success envelope without error, or a failure envelope without data. *)
Lemma main_writes_one_envelope repr_str H stdin :
  exists tr env,
    main repr_str H stdin = ((Effect <$> tr) ++ [Stdout env], inr tt) /\
    ((exists data, env = envelope true data None) \/
     (exists msg, env = envelope false JNull (Some msg))).
Proof.
  assert ((exists d, stdin = inr (JObj d)) \/ (forall d, stdin <> inr (JObj d)))
    as [[d ->]|Hno].
  { destruct stdin as [e|[]]; try (by right); left; by eexists. }
  - rewrite main_object.
    destruct (handler_call H _ _) as [e|[call|]].
    + exists [], (envelope false JNull (Some (error_text e))). split; [done|].
      right. by eexists.
    + destruct (outcome call) as [e|data]; eexists (trace call), _;
        (split; [done|]); [right|left]; by eexists.
    + eexists [], _. split; [done|]. right. by eexists.
  - destruct (main_not_object repr_str H stdin Hno) as [e ->].
    eexists [], _. split; [done|]. right. by eexists.
Qed.

Lemma handler_call_unknown H action params :
  (forall name, name ∈ known_actions -> action <> JStr name) ->
  handler_call H action params = inr None.
Proof.
  intros Hunknown. unfold handler_call.
  rewrite !eq_str_false; [done|apply Hunknown; unfold known_actions; set_solver..].
Qed.

Lemma handler_call_known H action params :
  handler_call H action params <> inr None ->
  exists name, name ∈ known_actions /\ action = JStr name.
Proof.
  unfold handler_call, known_actions. intros Hsel.
  repeat match type of Hsel with
  | context [eq_str action ?name] =>
      destruct (eq_str action name) eqn:?;
        [exists name; split; [repeat constructor | by apply eq_str_true] |]
  end.
  done.
Qed.

Lemma envelope_error msg :
  msg <> "" ->
  envelope false JNull (Some msg)
  = JObj [("success", JBool false); ("error", JStr msg)].
Proof. intros Hmsg. unfold envelope. by rewrite bool_decide_eq_false_2. Qed.

Lemma envelope_fields success data error :
  (success = true -> error = None) ->
  (success = false -> data = JNull) ->
  has_field "data" (envelope success data error)
  && has_field "error" (envelope success data error) = false.
Proof.
  intros Hok Hbad. destruct success.
  - rewrite Hok by done. by destruct data.
  - rewrite Hbad by done. destruct error as [msg|]; [|done].
    unfold envelope. by destruct (bool_decide (msg = "")).
Qed.

(** C7: a decoded request object whose action value is none of the seven
    names selects no handler call, and [main] writes one envelope,
    [{"success": false, "error": "Unknown action: <action>"}], and does
    nothing else, whatever the handlers are. *)
Theorem unknown_action_error :
  forall (repr_str : string -> string) (H : Handlers.t)
         (request : list (string * json)),
    (forall name, name ∈ known_actions -> request_action request <> JStr name) ->
    handler_call H (request_action request) (request_params request) = inr None /\
    main repr_str H (inr (JObj request))
    = ([Stdout (JObj [("success", JBool false);
                      ("error",
                       JStr ("Unknown action: "
                               +:+ py_str repr_str (request_action request)))])],
       inr tt).
Proof.
  intros repr_str H request Hunknown.
  pose proof (handler_call_unknown H _ (request_params request) Hunknown) as Hsel.
  split; [done|].
  rewrite main_object, Hsel. unfold respond. by rewrite envelope_error.
Qed.

(** C9: whatever the input and the handlers, [main] writes exactly one
    envelope, and that envelope does not have both a [data] and an [error]
    field. *)
Theorem envelope_never_data_and_error :
  forall (repr_str : string -> string) (H : Handlers.t) (stdin : py_exn + json),
    exists env,
      stdout (trace (main repr_str H stdin)) = [env] /\
      has_field "data" env && has_field "error" env = false.
Proof.
  intros repr_str H stdin.
  destruct (main_writes_one_envelope repr_str H stdin)
    as (tr & env & -> & [[data ->]|[msg ->]]);
    eexists; (split; [apply stdout_effects_then|]);
    by apply envelope_fields.
Qed.

Lemma exn_str_empty e : exn_str e = "" -> error_text e = "".
Proof.
  unfold error_text. destruct e as [msg lineno colno pos|cls str]; [|done].
  simpl. by destruct msg.
Qed.

(** C10: when the handler call selected by a request raises an exception
    whose [str()] is empty, [main] writes [{"success": false}], an envelope
    with no [error] field. *)
Theorem empty_error_message_omitted :
  forall (repr_str : string -> string) (H : Handlers.t)
         (request : list (string * json)) (call : M effect json) (e : py_exn),
    handler_call H (request_action request) (request_params request)
    = inr (Some call) ->
    outcome call = inl e ->
    exn_str e = "" ->
    stdout (trace (main repr_str H (inr (JObj request))))
    = [JObj [("success", JBool false)]] /\
    has_field "error" (JObj [("success", JBool false)]) = false.
Proof.
  intros repr_str H request call e Hsel Hraise Hempty.
  split; [|done].
  rewrite main_object, Hsel, Hraise. unfold trace at 1. cbn [fst].
  by rewrite stdout_effects_then, (exn_str_empty e Hempty).
Qed.

(** ** The statements at concrete inputs *)

Lemma search_tier1_results_win_witness :
  let B := mock_backends (inr (ok_response three_hits))
             (inr [ddgs_hit "https://ddg.example" "D" "d"]) in
  (exists results,
     outcome (search_action "http://searx.local:8080/" B "rocq" 2) = inr results /\
     length results = 2 /\
     tier2_calls (trace (search_action "http://searx.local:8080/" B "rocq" 2)) = 0) /\
  tier2_calls (trace (search_action "" B "rocq" 2)) = 1.
Proof.
  intros B.
  destruct (search_tier1_results_win "http://searx.local:8080/" B "rocq" 2)
    as [Hconfigured _].
  destruct (search_tier1_results_win "" B "rocq" 2) as [_ Hunconfigured].
  split; [|by apply Hunconfigured].
  destruct (Hconfigured ltac:(done) (ok_response three_hits) _ _
              eq_refl eq_refl eq_refl eq_refl)
    as (results & Hout & Hnorm & _ & _ & Hcalls).
  - repeat constructor.
  - done.
  - exists results. apply Forall2_length in Hnorm. done.
Defined.

(** C1 (as stated, it fails): the first tier is configured and answers 200
    with normalizable results, and the second tier is called all the same.
    With [limit=0] the slice of three normalizable entries is empty, so
    nothing is returned from the first tier; with an entry that is no dict
    after a normalizable one, the normalization raises.  In both runs the
    call returns what the second tier gives (after the first tier's partial
    result, in the second run). *)
Lemma search_normalizable_hit_yet_tier2_called :
  let ddg := ddgs_hit "https://ddg.example" "D" "d" in
  let hit := searxng_hit "https://rocq-prover.org" "Rocq" "The Rocq prover" in
  let from_hit := {| SearchResult.url := JStr "https://rocq-prover.org";
                     SearchResult.title := JStr "Rocq";
                     SearchResult.snippet := JStr "The Rocq prover" |} in
  let from_ddg := {| SearchResult.url := JStr "https://ddg.example";
                     SearchResult.title := JStr "D";
                     SearchResult.snippet := JStr "d" |} in
  let run0 := search_action "http://searx.local:8080"
                (mock_backends (inr (ok_response three_hits)) (inr [ddg]))
                "rocq" 0 in
  let run10 := search_action "http://searx.local:8080"
                 (mock_backends (inr (ok_response malformed_hits)) (inr [ddg]))
                 "rocq" 10 in
  status_code (ok_response three_hits) = 200%Z /\
  three_hits
  = JObj [("query", JStr "rocq");
          ("results",
           JArr [hit;
                 searxng_hit "https://iris-project.org" "Iris" "Separation logic";
                 searxng_hit "https://example.org" "Example" "An example"])] /\
  searxng_result hit = inr from_hit /\
  tier2_calls (trace run0) = 1 /\
  outcome run0 = inr [from_ddg] /\
  malformed_hits = JObj [("results", JArr [hit; JInt 5])] /\
  tier2_calls (trace run10) = 1 /\
  outcome run10 = inr [from_hit; from_ddg].
Proof. repeat split; reflexivity. Qed.

(** An answer whose second entry cannot be normalized is a failure of the
    first tier. *)
Lemma malformed_hits_fail url query :
  tier1_failure (mock_backends (inr (ok_response malformed_hits))
                   (inr [ddgs_hit "https://ddg.example" "D" "d"]))
    url query 10.
Proof.
  eapply bad_item; [reflexivity..|].
  apply Exists_cons_tl, Exists_cons_hd. simpl. tauto.
Defined.

Lemma search_tier1_failure_isolated_witness :
  let B := mock_backends (inr (ok_response malformed_hits))
             (inr [ddgs_hit "https://ddg.example" "D" "d"]) in
  tier2_calls (trace (search_action "http://searx.local:8080" B "rocq" 10)) = 1 /\
  exists results,
    outcome (search_action "http://searx.local:8080" B "rocq" 10) = inr results.
Proof.
  intros B.
  destruct (search_tier1_failure_isolated "http://searx.local:8080" B "rocq" 10
              ltac:(done) (malformed_hits_fail _ _))
    as (Hcalls & Hok & _).
  split; [done|].
  destruct (Hok _ eq_refl) as (collected & new & Hout & _).
  - repeat constructor.
  - by exists (collected ++ new).
Defined.

Lemma search_all_backends_failed_witness :
  let B := mock_backends (inl connect_error) (inl connect_error) in
  (exists msg,
     outcome (search_action "" B "rocq" 10) = inl (PyExn Exception_ msg) /\
     contains "search backends" msg = true /\
     contains "Configure SEARXNG_URL" msg = true) /\
  (exists msg,
     outcome (search_action "http://searx.local:8080" B "rocq" 10)
     = inl (PyExn Exception_ msg) /\
     contains "search backends" msg = true /\
     contains "Configure SEARXNG_URL" msg = true).
Proof.
  intros B. split.
  - apply search_all_backends_failed; [by left|].
    left. by exists connect_error.
  - apply search_all_backends_failed.
    + right. by eapply transport_error.
    + left. by exists connect_error.
Defined.

Lemma map_dedup_by_whole_entry_witness :
  let E := mock_engine (failed_page "")
             [page_with_links "https://example.com"
                [anchor "/a" "A"; anchor "/a" "Another"; anchor "/a" "A";
                 LinkStr "/a"; LinkStr ""]] in
  let out := [ {| MapEntry.url := LinkStr "/a"; MapEntry.title := "A" |};
               {| MapEntry.url := LinkStr "/a"; MapEntry.title := "Another" |};
               {| MapEntry.url := LinkStr "/a"; MapEntry.title := "" |} ] in
  outcome (map_action E "https://example.com" None 100) = inr out /\
  NoDup out.
Proof.
  intros E out.
  assert (outcome (map_action E "https://example.com" None 100) = inr out)
    as Hout by reflexivity.
  split; [done|].
  destruct (map_dedup_by_whole_entry E "https://example.com" None 100 out Hout)
    as (_ & _ & _ & _ & _ & Hnodup & _).
  done.
Defined.

Lemma map_scenario_limit_two_witness :
  outcome (map_action
             (mock_engine (failed_page "")
                [page_with_links "https://example.com"
                   [anchor "/a" "A"; anchor "/a" "A"; anchor "/b" "B";
                    anchor "/c" "C"]])
             "https://example.com" None 2)
  = inr [ {| MapEntry.url := LinkStr "/a"; MapEntry.title := "A" |};
          {| MapEntry.url := LinkStr "/b"; MapEntry.title := "B" |} ].
Proof.
  apply map_scenario_limit_two. reflexivity.
Defined.

Lemma unknown_action_error_witness :
  main repr_plain (returning_handlers (JStr "data"))
    (inr (JObj [("action", JStr "delete"); ("params", JObj [])]))
  = ([Stdout (JObj [("success", JBool false);
                    ("error", JStr "Unknown action: delete")])], inr tt).
Proof.
  apply (unknown_action_error repr_plain (returning_handlers (JStr "data"))
           [("action", JStr "delete"); ("params", JObj [])]).
  intros name Hname Heq. injection Heq as <-.
  unfold known_actions in Hname.
  repeat (apply elem_of_cons in Hname as [Hname|Hname]; [discriminate|]).
  by apply elem_of_nil in Hname.
Defined.

Lemma empty_error_message_omitted_witness :
  stdout (trace (main repr_plain
                   (raising_handlers (PyExn (OtherError "TimeoutError") ""))
                   (inr (JObj [("action", JStr "fetch");
                               ("params", JObj [("url", JStr "https://example.com")])]))))
  = [JObj [("success", JBool false)]].
Proof.
  eapply (empty_error_message_omitted repr_plain
            (raising_handlers (PyExn (OtherError "TimeoutError") "")));
    reflexivity.
Defined.

(** ** Further behaviour at concrete inputs *)

(** A request without [action]: the action is [None]. *)
Example unknown_action_none :
  stdout (trace (main repr_plain (returning_handlers JNull) (inr (JObj []))))
  = [JObj [("success", JBool false); ("error", JStr "Unknown action: None")]].
Proof. reflexivity. Qed.

(** A document that is no object has no [get]. *)
Example request_not_an_object :
  stdout (trace (main repr_plain (returning_handlers JNull) (inr (JArr []))))
  = [JObj [("success", JBool false);
           ("error", JStr "'list' object has no attribute 'get'")]].
Proof. reflexivity. Qed.

(** A missing required parameter is a [KeyError], reported by its key. *)
Example missing_url :
  stdout (trace (main repr_plain (returning_handlers JNull)
                   (inr (JObj [("action", JStr "fetch")]))))
  = [JObj [("success", JBool false); ("error", JStr "'url'")]].
Proof. reflexivity. Qed.

(** A handler that returns [None] gives an envelope without [data]. *)
Example void_success :
  stdout (trace (main repr_plain (returning_handlers JNull)
                   (inr (JObj [("action", JStr "debug")]))))
  = [JObj [("success", JBool true)]].
Proof. reflexivity. Qed.

Example invalid_json :
  stdout (trace (main repr_plain (returning_handlers JNull)
                   (inl (JSONDecodeError "Expecting value" 1 1 0))))
  = [JObj [("success", JBool false);
           ("error",
            JStr "Invalid JSON request: Expecting value: line 1 column 1 (char 0)")]].
Proof. reflexivity. Qed.

(** When the first tier raises on its second entry, the entry already
    appended stays in [results] and comes before the second tier's. *)
Example search_keeps_partial_results :
  outcome (search_action "http://searx.local:8080"
             (mock_backends (inr (ok_response malformed_hits))
                (inr [ddgs_hit "https://ddg.example" "D" "d"]))
             "rocq" 10)
  = inr [ {| SearchResult.url := JStr "https://rocq-prover.org";
             SearchResult.title := JStr "Rocq";
             SearchResult.snippet := JStr "The Rocq prover" |};
          {| SearchResult.url := JStr "https://ddg.example";
             SearchResult.title := JStr "D";
             SearchResult.snippet := JStr "d" |} ].
Proof. reflexivity. Qed.

(** With [limit=0] the slice of the first tier's answer is empty and the
    second tier is asked. *)
Example search_limit_zero :
  let run := search_action "http://searx.local:8080"
               (mock_backends (inr (ok_response three_hits)) (inr []))
               "rocq" 0 in
  outcome run = inr [] /\ tier2_calls (trace run) = 1.
Proof. split; reflexivity. Qed.

(** The endpoint drops trailing slashes of the configured url. *)
Example search_endpoint :
  trace (search_action "http://searx.local:8080/"
           (mock_backends (inr (ok_response three_hits)) (inr [])) "rocq" 2)
  = [HttpGet "http://searx.local:8080/search" [("q", "rocq"); ("format", "json")]].
Proof. reflexivity. Qed.

(** [search] keeps the entries whose url or title has the substring, in any
    case. *)
Example map_search_docs :
  outcome (map_action
             (mock_engine (failed_page "")
                [page_with_links "https://example.com"
                   [anchor "/Docs/start" "Start"; anchor "/blog" "Blog";
                    anchor "/api" "API docs"; LinkStr "/about"]])
             "https://example.com" (Some "DOCS") 100)
  = inr [ {| MapEntry.url := LinkStr "/Docs/start"; MapEntry.title := "Start" |};
          {| MapEntry.url := LinkStr "/api"; MapEntry.title := "API docs" |} ].
Proof. reflexivity. Qed.

(** * Further properties of the bridge *)

(** ** The dispatcher *)

Lemma envelope_data data :
  data <> JNull ->
  envelope true data None = JObj [("success", JBool true); ("data", data)].
Proof. by destruct data. Qed.

(** X1: when the input cannot be decoded as JSON, [main] writes the one
    envelope [{"success": false, "error": "Invalid JSON request: <str(e)>"}]
    and does nothing else: no handler runs, whatever the handlers are. *)
Theorem main_invalid_json :
  forall (repr_str : string -> string) (H : Handlers.t)
         (msg : string) (lineno colno pos : Z),
    main repr_str H (inl (JSONDecodeError msg lineno colno pos))
    = ([Stdout (JObj [("success", JBool false);
                      ("error",
                       JStr ("Invalid JSON request: "
                               +:+ exn_str (JSONDecodeError msg lineno colno pos)))])],
       inr tt).
Proof.
  intros. rewrite main_handles. unfold try_except, bind, lift, respond, emit.
  simpl. by rewrite envelope_error.
Qed.

(** X2: a decoded document that is not an object is answered with the
    [AttributeError] of [request.get], naming the document's Python type, and
    no handler runs. *)
Theorem main_document_not_object :
  forall (repr_str : string -> string) (H : Handlers.t) (document : json),
    ~ is_dict document ->
    main repr_str H (inr document)
    = ([Stdout (JObj [("success", JBool false);
                      ("error",
                       JStr ("'" +:+ type_name document
                               +:+ "' object has no attribute 'get'"))])],
       inr tt).
Proof.
  intros repr_str H document Hnot. rewrite main_handles, bind_lift_inr.
  destruct document; simpl in Hnot; try tauto; reflexivity.
Qed.

Lemma main_document_not_object_witness :
  stdout (trace (main repr_plain (returning_handlers JNull) (inr (JStr "fetch"))))
  = [JObj [("success", JBool false);
           ("error", JStr "'str' object has no attribute 'get'")]].
Proof.
  rewrite (main_document_not_object repr_plain (returning_handlers JNull)
             (JStr "fetch")); [reflexivity|].
  simpl. tauto.
Defined.

(** X3: when a required parameter is missing from [params] (or [params]
    itself is missing), [main] answers with the [KeyError] of the first
    missing one, its name in single quotes, and the handler is not called. *)
Theorem main_missing_required_parameter :
  forall (repr_str : string -> string) (H : Handlers.t)
         (request params : list (string * json))
         (name key : string) (present rest : list string),
    (name, present ++ key :: rest) ∈ required_parameters ->
    request_action request = JStr name ->
    request_params request = JObj params ->
    Forall (fun k => is_Some (assoc k params)) present ->
    assoc key params = None ->
    main repr_str H (inr (JObj request))
    = ([Stdout (JObj [("success", JBool false);
                      ("error", JStr ("'" +:+ key +:+ "'"))])],
       inr tt).
Proof.
  intros repr_str H request params name key present rest Hin Hact Hpar Hpres Hkey.
  rewrite main_object, Hact, Hpar.
  assert (handler_call H (JStr name) (JObj params)
          = inl (PyExn KeyError ("'" +:+ key +:+ "'"))) as ->.
  { unfold required_parameters in Hin.
    repeat (apply elem_of_cons in Hin as [Hin|Hin]);
      [..|by apply elem_of_nil in Hin];
      injection Hin as -> Hkeys;
      destruct present as [|k1 [|k2 [|k3 present]]]; simplify_eq/=;
      unfold handler_call; simpl;
      repeat match goal with
      | Hsome : Forall _ (_ :: _) |- _ =>
          apply Forall_cons in Hsome as [[? ->] Hsome]
      end;
      by rewrite ?Hkey. }
  unfold respond, error_text. simpl. rewrite envelope_error; [done|].
  by destruct key.
Qed.

Lemma main_missing_required_parameter_witness :
  stdout (trace (main repr_plain (returning_handlers JNull)
                   (inr (JObj [("action", JStr "extract");
                               ("params", JObj [("url", JStr "https://example.com")])]))))
  = [JObj [("success", JBool false); ("error", JStr "'schema'")]].
Proof.
  rewrite (main_missing_required_parameter repr_plain (returning_handlers JNull)
             _ [("url", JStr "https://example.com")] "extract" "schema" ["url"] []);
    try reflexivity.
  - unfold required_parameters. repeat constructor.
  - repeat constructor. by eexists.
Defined.

(** X4: when the selected handler returns, [main] writes the success
    envelope after the handler's effects: [{"success": true, "data": ...}],
    or [{"success": true}] alone when the handler returned [None]. *)
Theorem main_handler_returns :
  forall (repr_str : string -> string) (H : Handlers.t)
         (request : list (string * json)) (call : M effect json) (data : json),
    handler_call H (request_action request) (request_params request)
    = inr (Some call) ->
    outcome call = inr data ->
    main repr_str H (inr (JObj request))
    = ((Effect <$> trace call)
         ++ [Stdout (match data with
                     | JNull => JObj [("success", JBool true)]
                     | _ => JObj [("success", JBool true); ("data", data)]
                     end)],
       inr tt).
Proof.
  intros repr_str H request call data Hsel Hret.
  rewrite main_object, Hsel, Hret. by destruct data.
Qed.

Lemma main_handler_returns_witness :
  main repr_plain (returning_handlers (JArr [JInt 1]))
    (inr (JObj (request_of "map" [("url", JStr "https://example.com")])))
  = ([Effect (Stderr "map");
      Stdout (JObj [("success", JBool true); ("data", JArr [JInt 1])])],
     inr tt).
Proof.
  by rewrite (main_handler_returns repr_plain (returning_handlers (JArr [JInt 1]))
                _ ([Stderr "map"], inr (JArr [JInt 1])) (JArr [JInt 1])).
Defined.

(** X5: when the selected handler raises an exception other than a JSON
    decode error, with a non-empty [str()], [main] writes
    [{"success": false, "error": <str(e)>}] after the handler's effects: the
    message is passed on unchanged, whatever the exception's class. *)
Theorem main_handler_raises :
  forall (repr_str : string -> string) (H : Handlers.t)
         (request : list (string * json)) (call : M effect json)
         (cls : exn_class) (message : string),
    handler_call H (request_action request) (request_params request)
    = inr (Some call) ->
    outcome call = inl (PyExn cls message) ->
    message <> "" ->
    main repr_str H (inr (JObj request))
    = ((Effect <$> trace call)
         ++ [Stdout (JObj [("success", JBool false); ("error", JStr message)])],
       inr tt).
Proof.
  intros repr_str H request call cls message Hsel Hraise Hne.
  rewrite main_object, Hsel, Hraise. unfold error_text. simpl.
  by rewrite envelope_error.
Qed.

Lemma main_handler_raises_witness :
  main repr_plain (raising_handlers connect_error)
    (inr (JObj (request_of "crawl" [("url", JStr "https://example.com")])))
  = ([Stdout (JObj [("success", JBool false);
                    ("error", JStr "All connection attempts failed")])],
     inr tt).
Proof.
  by rewrite (main_handler_raises repr_plain (raising_handlers connect_error)
                _ (raise connect_error) (OtherError "ConnectError")
                "All connection attempts failed").
Defined.

(** X6: a JSON decode error raised inside a handler (the extract handler
    decodes the engine's extracted content) is caught by the same clause as
    a decode error of the request, so [main] reports it as
    "Invalid JSON request: ...". *)
Theorem main_handler_decode_error :
  forall (repr_str : string -> string) (H : Handlers.t)
         (request : list (string * json)) (call : M effect json)
         (msg : string) (lineno colno pos : Z),
    handler_call H (request_action request) (request_params request)
    = inr (Some call) ->
    outcome call = inl (JSONDecodeError msg lineno colno pos) ->
    stdout (trace (main repr_str H (inr (JObj request))))
    = [JObj [("success", JBool false);
             ("error",
              JStr ("Invalid JSON request: "
                      +:+ exn_str (JSONDecodeError msg lineno colno pos)))]].
Proof.
  intros repr_str H request call msg lineno colno pos Hsel Hraise.
  rewrite main_object, Hsel, Hraise. unfold trace at 1. cbn [fst].
  rewrite stdout_effects_then. unfold error_text. simpl.
  by rewrite envelope_error.
Qed.

Lemma main_handler_decode_error_witness :
  stdout (trace (main repr_plain
                   (raising_handlers (JSONDecodeError "Expecting value" 1 1 0))
                   (inr (JObj (request_of "extract"
                                 [("url", JStr "https://example.com");
                                  ("schema", JObj [])])))))
  = [JObj [("success", JBool false);
           ("error",
            JStr "Invalid JSON request: Expecting value: line 1 column 1 (char 0)")]].
Proof.
  by rewrite (main_handler_decode_error repr_plain
                (raising_handlers (JSONDecodeError "Expecting value" 1 1 0))
                _ (raise (JSONDecodeError "Expecting value" 1 1 0))
                "Expecting value" 1 1 0).
Defined.

Lemma assoc_app {A} (k : string) (p q : list (string * A)) :
  assoc k (p ++ q) = match assoc k p with
                     | Some v => Some v
                     | None => assoc k q
                     end.
Proof.
  induction p as [|[k' v] p IH]; [reflexivity|].
  simpl. by destruct (bool_decide (k' = k)).
Qed.

Lemma py_getitem_app p q k :
  assoc k q = None -> py_getitem (JObj (p ++ q)) k = py_getitem (JObj p) k.
Proof. intros Hq. simpl. rewrite assoc_app, Hq. by destruct (assoc k p). Qed.

Lemma py_get_app_default p q k d :
  assoc k q = Some d -> py_get (JObj (p ++ q)) k d = py_get (JObj p) k d.
Proof. intros Hq. simpl. rewrite assoc_app, Hq. by destruct (assoc k p). Qed.

Lemma eq_str_JStr_ne name s : name <> s -> eq_str (JStr name) s = false.
Proof. intros Hne. simpl. by apply bool_decide_eq_false_2. Qed.

Ltac evaluate_names :=
  repeat match goal with
  | |- context [eq_str (JStr ?n) ?s] =>
      let b := eval vm_compute in (eq_str (JStr n) s) in
      change (eq_str (JStr n) s) with b
  | |- context [optional_defaults ?n] =>
      let d := eval vm_compute in (optional_defaults n) in
      change (optional_defaults n) with d
  end; cbv iota.

Lemma handler_call_defaults H name params :
  handler_call H (JStr name) (JObj (params ++ optional_defaults name))
  = handler_call H (JStr name) (JObj params).
Proof.
  unfold handler_call.
  destruct (decide (name = "debug")) as [->|?]; [reflexivity|].
  destruct (decide (name = "fetch")) as [->|?].
  { evaluate_names.
    by rewrite py_getitem_app, !py_get_app_default by reflexivity. }
  destruct (decide (name = "search")) as [->|?].
  { evaluate_names.
    by rewrite py_getitem_app, !py_get_app_default by reflexivity. }
  destruct (decide (name = "extract")) as [->|?].
  { evaluate_names. by rewrite app_nil_r. }
  destruct (decide (name = "screenshot")) as [->|?].
  { evaluate_names.
    by rewrite py_getitem_app, !py_get_app_default by reflexivity. }
  destruct (decide (name = "crawl")) as [->|?].
  { evaluate_names.
    by rewrite py_getitem_app, !py_get_app_default by reflexivity. }
  destruct (decide (name = "map")) as [->|?].
  { evaluate_names.
    by rewrite py_getitem_app, !py_get_app_default by reflexivity. }
  by rewrite !eq_str_JStr_ne.
Qed.

(** X7: leaving an optional parameter out is the same as passing its
    default: for every action and every [params], [main] behaves on the
    request as on the request with the defaults of the action appended
    (format "markdown" and timeout 30 for fetch, limit 10 for search,
    1280x720 for screenshot, 10 pages, depth 2 and "bfs" for crawl, limit 100
    for map, and [None] for the others). *)
Theorem main_optional_defaults :
  forall (repr_str : string -> string) (H : Handlers.t) (name : string)
         (params : list (string * json)),
    main repr_str H (inr (JObj (request_of name (params ++ optional_defaults name))))
    = main repr_str H (inr (JObj (request_of name params))).
Proof.
  intros repr_str H name params. rewrite !main_object.
  change (request_action (request_of name ?p)) with (JStr name).
  change (request_params (request_of name ?p)) with (JObj p).
  by rewrite handler_call_defaults.
Qed.

Lemma envelope_success success data error :
  get_field "success" (envelope success data error) = Some (JBool success).
Proof.
  unfold envelope. destruct data, error as [msg|]; simpl;
    try destruct (bool_decide (msg = "")); reflexivity.
Qed.

(** What [main] writes, by the outcome of the selected handler. *)
Lemma main_envelope_success repr_str H stdin :
  exists tr env,
    trace (main repr_str H stdin) = (Effect <$> tr) ++ [Stdout env] /\
    (get_field "success" env = Some (JBool true) <->
     exists request call data,
       stdin = inr (JObj request) /\
       handler_call H (request_action request) (request_params request)
       = inr (Some call) /\
       outcome call = inr data).
Proof.
  assert ((exists d, stdin = inr (JObj d)) \/ (forall d, stdin <> inr (JObj d)))
    as [[d ->]|Hno].
  { destruct stdin as [e|[]]; try (by right); left; by eexists. }
  - rewrite main_object.
    destruct (handler_call H _ _) as [e|[call|]] eqn:Hsel.
    + eexists [], _. split; [done|].
      rewrite envelope_success. split; [done|].
      intros (? & ? & ? & [= <-] & ? & _). congruence.
    + destruct (outcome call) as [e|data] eqn:Hout.
      * eexists (trace call), _. split; [done|].
        rewrite envelope_success. split; [done|].
        intros (? & ? & ? & [= <-] & ? & ?). congruence.
      * eexists (trace call), _. split; [done|].
        rewrite envelope_success. split; [|done].
        intros _. by exists d, call, data.
    + eexists [], _. split; [done|].
      rewrite envelope_success. split; [done|].
      intros (? & ? & ? & [= <-] & ? & _). congruence.
  - destruct (main_not_object repr_str H stdin Hno) as [e ->].
    eexists [], _. split; [done|].
    rewrite envelope_success. split; [done|].
    intros (request & ? & ? & -> & _). by destruct (Hno request).
Qed.

(** X8: every envelope that [main] writes says [success: true] exactly
    when the input was a request object whose action selected a handler,
    the handler's arguments could be read, and the handler returned; in every
    other case (undecodable input, a document that is no object, an unknown
    action, a missing parameter, a handler that raised) it says
    [success: false]. *)
Theorem main_success_iff_handler_returned :
  forall (repr_str : string -> string) (H : Handlers.t) (stdin : py_exn + json),
    Forall (fun env =>
              exists success,
                get_field "success" env = Some (JBool success) /\
                (success = true <->
                 exists request call data,
                   stdin = inr (JObj request) /\
                   handler_call H (request_action request) (request_params request)
                   = inr (Some call) /\
                   outcome call = inr data))
      (stdout (trace (main repr_str H stdin))).
Proof.
  intros repr_str H stdin.
  destruct (main_writes_one_envelope repr_str H stdin)
    as (tr0 & env0 & Hmain & Hshape).
  destruct (main_envelope_success repr_str H stdin) as (tr & env & Htrace & Hiff).
  assert (env = env0) as ->.
  { rewrite Hmain in Htrace. unfold trace in Htrace. cbn [fst] in Htrace.
    apply (f_equal stdout) in Htrace.
    rewrite !stdout_effects_then in Htrace. congruence. }
  rewrite Htrace, stdout_effects_then.
  apply Forall_singleton.
  destruct Hshape as [[data ->]|[msg ->]].
  - exists true. rewrite envelope_success in *. split; [done|].
    split; [intros _; by apply Hiff|done].
  - exists false. rewrite envelope_success in *. split; [done|].
    split; [done|]. intros Hret. apply Hiff in Hret. done.
Qed.

Lemma main_handler_returns_data repr_str H request (call : M effect json) :
  handler_call H (request_action request) (request_params request)
  = inr (Some call) ->
  main repr_str H (inr (JObj request))
  = match outcome call with
    | inl e =>
        ((Effect <$> trace call)
           ++ [Stdout (envelope false JNull (Some (error_text e)))], inr tt)
    | inr data =>
        ((Effect <$> trace call) ++ [Stdout (envelope true data None)], inr tt)
    end.
Proof. intros Hsel. by rewrite main_object, Hsel. Qed.

(** ** fetch *)

(** X9: when the engine reports failure, [fetch_action] raises an
    [Exception] with the engine's message, or with "Failed to fetch URL"
    when the message is [None] or empty, whatever the format asked for. *)
Theorem fetch_action_engine_failure :
  forall (E : engine) (url format : string) (wait_for js_code : option string)
         (timeout : Z) (result : CrawlResult.t),
    (forall browser_config run_config,
       arun E url browser_config run_config = inr result) ->
    CrawlResult.success result = false ->
    outcome (fetch_action E url format wait_for js_code timeout)
    = inl (PyExn Exception_
             match CrawlResult.error_message result with
             | Some message =>
                 if bool_decide (message = "") then "Failed to fetch URL"
                 else message
             | None => "Failed to fetch URL"
             end).
Proof.
  intros E url format wait_for js_code timeout result Hrun Hfail.
  unfold fetch_action. rewrite outcome_emit, Hrun, bind_lift_inr.
  by rewrite Hfail.
Qed.

Lemma fetch_action_engine_failure_witness :
  outcome (fetch_action (mock_engine (failed_page "https://example.com") [])
             "https://example.com" "html" None None 30)
  = inl (PyExn Exception_ "net::ERR_CONNECTION_REFUSED").
Proof.
  by rewrite (fetch_action_engine_failure _ _ _ _ _ _
                (failed_page "https://example.com")).
Defined.

(** X10: on success, [format="html"] returns the result's [html] and
    [format="raw"] its [raw_html], unchanged. *)
Theorem fetch_action_html_and_raw :
  forall (E : engine) (url : string) (wait_for js_code : option string)
         (timeout : Z) (result : CrawlResult.t),
    (forall browser_config run_config,
       arun E url browser_config run_config = inr result) ->
    CrawlResult.success result = true ->
    outcome (fetch_action E url "html" wait_for js_code timeout)
    = inr (CrawlResult.html result) /\
    outcome (fetch_action E url "raw" wait_for js_code timeout)
    = inr (CrawlResult.raw_html result).
Proof.
  intros E url wait_for js_code timeout result Hrun Hsucc.
  unfold fetch_action. rewrite !outcome_emit, !Hrun, !bind_lift_inr.
  by rewrite Hsucc.
Qed.

Lemma fetch_action_html_and_raw_witness :
  outcome (fetch_action (mock_engine (ok_page "https://example.com" "# Hi" "Hi") [])
             "https://example.com" "html" None None 30)
  = inr "<html># Hi</html>" /\
  outcome (fetch_action (mock_engine (ok_page "https://example.com" "# Hi" "Hi") [])
             "https://example.com" "raw" None None 30)
  = inr "<!doctype html><html># Hi</html>".
Proof.
  by apply (fetch_action_html_and_raw _ _ _ _ _
              (ok_page "https://example.com" "# Hi" "Hi")).
Defined.

(** X11: [fetch_action] runs the engine exactly once, whatever the
    outcome: in stealth mode, with the timeout in seconds turned into
    milliseconds, and with the script, when it is not empty, as a one-element
    list; an exception of the run is passed on unchanged. *)
Theorem fetch_action_single_run :
  forall (E : engine) (url format : string) (wait script : option string)
         (timeout : Z),
    let run_config :=
      {| wait_for := wait;
         js_code := match script with
                    | Some code => if bool_decide (code = "") then None
                                   else Some [code]
                    | None => None
                    end;
         page_timeout := Some (timeout * 1000)%Z;
         deep_crawl_strategy := None;
         stream := false |} in
    trace (fetch_action E url format wait script timeout)
    = [Arun url stealth_browser run_config] /\
    forall e, arun E url stealth_browser run_config = inl e ->
              outcome (fetch_action E url format wait script timeout) = inl e.
Proof.
  intros E url format wait script timeout run_config.
  assert (match script with
          | Some c => if truthy script then Some [c] else None
          | None => None
          end = js_code run_config) as Hjs.
  { destruct script as [c|]; [|done]. simpl.
    by destruct (bool_decide (c = "")). }
  unfold fetch_action. rewrite trace_emit, outcome_emit, Hjs.
  change {| wait_for := wait; js_code := js_code run_config;
            page_timeout := Some (timeout * 1000)%Z;
            deep_crawl_strategy := None; stream := false |} with run_config.
  split.
  - f_equal. destruct (arun E url stealth_browser run_config) as [e|result];
      [done|].
    rewrite bind_lift_inr.
    destruct (CrawlResult.success result); simpl; [|done].
    by repeat case_bool_decide.
  - by intros e ->.
Qed.

Lemma fetch_action_single_run_witness :
  trace (fetch_action (failing_engine connect_error) "https://example.com"
           "markdown" (Some "css:#main") (Some "scroll()") 5)
  = [Arun "https://example.com" stealth_browser
       {| wait_for := Some "css:#main"; js_code := Some ["scroll()"];
          page_timeout := Some 5000%Z; deep_crawl_strategy := None;
          stream := false |}] /\
  outcome (fetch_action (failing_engine connect_error) "https://example.com"
             "markdown" (Some "css:#main") (Some "scroll()") 5)
  = inl connect_error.
Proof.
  destruct (fetch_action_single_run (failing_engine connect_error)
              "https://example.com" "markdown" (Some "css:#main")
              (Some "scroll()") 5) as [Htrace Hraise].
  split; [exact Htrace|]. by apply Hraise.
Defined.

(** ** search *)

(** X12: with the first tier unconfigured and a second tier that answers
    with dicts, [search_action] calls the provider once with the query and
    [max_results=limit] and returns one normalized result per entry of the
    answer, in order (url from [href], title from [title], snippet from
    [body], each defaulting to the empty string); the bridge itself does not
    cut the provider's answer down to [limit]. *)
Theorem search_unconfigured_results :
  forall (B : backends) (query : string) (limit : Z) (items : list json),
    ddgs_text B query limit = inr items ->
    Forall is_dict items ->
    exists results,
      search_action "" B query limit = ([DdgsText query limit], inr results) /\
      Forall2 (normalized_from "href" "title" "body") items results.
Proof.
  intros B query limit items Hcall Hall.
  destruct (append_each_all_ok ddgs_result is_dict
              (normalized_from "href" "title" "body") items []
              ddgs_result_dict Hall) as (results & Heach & Hnorm).
  exists results. split; [|done].
  rewrite search_action_unconfigured.
  unfold ddgs_fallback, bind, emit, try_except, lift, ret.
  rewrite Hcall. simpl. by rewrite Heach.
Qed.

Lemma search_unconfigured_results_witness :
  exists results,
    search_action ""
      (mock_backends (inl connect_error)
         (inr [ddgs_hit "https://a.example" "A" "a";
               ddgs_hit "https://b.example" "B" "b"]))
      "rocq" 1
    = ([DdgsText "rocq" 1], inr results) /\
    length results = 2.
Proof.
  destruct (search_unconfigured_results
              (mock_backends (inl connect_error)
                 (inr [ddgs_hit "https://a.example" "A" "a";
                       ddgs_hit "https://b.example" "B" "b"]))
              "rocq" 1 _ eq_refl) as (results & Hrun & Hnorm).
  - repeat constructor.
  - exists results. split; [exact Hrun|].
    by apply Forall2_length in Hnorm.
Defined.

Lemma append_each_stops {A B} (f : A -> py_exn + B) (P : A -> Prop)
    (R : A -> B -> Prop) good bad rest acc e :
  (forall item, P item -> exists r, f item = inr r /\ R item r) ->
  Forall P good ->
  f bad = inl e ->
  exists new,
    append_each f (good ++ bad :: rest) acc = (acc ++ new, Some e) /\
    Forall2 R good new.
Proof.
  intros Hf Hgood Hbad. revert acc.
  induction Hgood as [|item good Hitem _ IH]; intros acc; simpl.
  - rewrite Hbad. exists []. by rewrite app_nil_r.
  - destruct (Hf item Hitem) as (r & -> & HR).
    destruct (IH (acc ++ [r])) as (new & -> & Hnew).
    exists (r :: new). split; [by rewrite <- app_assoc | by constructor].
Qed.

(** X13: when the first tier answers 200 and an entry among the first
    [limit] is not a dict, the results normalized before it stay in the
    list: if the second tier then succeeds, [search_action] returns those
    first-tier results followed by all of the second tier's, so results of
    both backends are mixed and there may be more than [limit] of them. *)
Theorem search_partial_first_tier_results_kept :
  forall (SEARXNG_URL : string) (B : backends) (query : string) (limit : Z)
         (response : http_response) (good rest : list json) (bad : json)
         (items : list json),
    SEARXNG_URL <> "" ->
    httpx_get B (searxng_endpoint SEARXNG_URL) (searxng_params query)
    = inr response ->
    status_code response = 200%Z ->
    searxng_items response limit = inr (good ++ bad :: rest) ->
    Forall is_dict good ->
    ~ is_dict bad ->
    ddgs_text B query limit = inr items ->
    Forall is_dict items ->
    exists first second,
      outcome (search_action SEARXNG_URL B query limit) = inr (first ++ second) /\
      Forall2 (normalized_from "url" "title" "content") good first /\
      Forall2 (normalized_from "href" "title" "body") items second.
Proof.
  intros SEARXNG_URL B query limit response good rest bad items
    Hcfg Hget Hst Hitems Hgood Hbad Hcall Hall.
  destruct (searxng_result_not_dict bad Hbad) as [e He].
  destruct (append_each_stops searxng_result is_dict
              (normalized_from "url" "title" "content") good bad rest [] e
              searxng_result_dict Hgood He) as (first & Heach & Hfirst).
  destruct (ddgs_fallback_succeeds B query limit first items Hcall Hall)
    as (second & Hout & Hsecond).
  exists first, second. split; [|done].
  unfold search_action, truthy. rewrite bool_decide_eq_false_2 by done.
  cbn [negb]. rewrite outcome_emit.
  unfold searxng_try. rewrite Hget. apply Z.eqb_eq in Hst as ->.
  rewrite Hitems, Heach. cbn [app].
  unfold log_error. by rewrite outcome_emit.
Qed.

Lemma search_partial_first_tier_results_kept_witness :
  exists first second,
    outcome (search_action "http://searx.local:8080"
               (mock_backends (inr (ok_response malformed_hits))
                  (inr [ddgs_hit "https://ddg.example" "D" "d"]))
               "rocq" 10)
    = inr (first ++ second) /\
    length first = 1 /\ length second = 1.
Proof.
  destruct (search_partial_first_tier_results_kept "http://searx.local:8080"
              (mock_backends (inr (ok_response malformed_hits))
                 (inr [ddgs_hit "https://ddg.example" "D" "d"]))
              "rocq" 10 (ok_response malformed_hits)
              [searxng_hit "https://rocq-prover.org" "Rocq" "The Rocq prover"]
              [] (JInt 5) [ddgs_hit "https://ddg.example" "D" "d"])
    as (first & second & Hout & Hfirst & Hsecond);
    try reflexivity; try done; try (repeat constructor).
  - simpl. tauto.
  - exists first, second. split; [exact Hout|].
    apply Forall2_length in Hfirst, Hsecond. done.
Defined.

Lemma ddgs_fallback_trace B query limit results :
  exists logged,
    trace (ddgs_fallback B query limit results)
    = DdgsText query limit :: (Stderr <$> logged) /\
    (length logged <= 1)%nat.
Proof.
  unfold ddgs_fallback. rewrite trace_emit.
  unfold try_except, bind, lift, log_error, emit, raise, ret, trace.
  destruct (ddgs_text B query limit) as [e|items]; simpl.
  - by eexists [_].
  - destruct (append_each ddgs_result items results) as [rs [e|]]; simpl.
    + by eexists [_].
    + exists []. split; [done|]. simpl. lia.
Qed.

Lemma tier1_calls_cons ev tr :
  tier1_calls (ev :: tr) = ((if is_http_get ev then 1 else 0) + tier1_calls tr)%nat.
Proof.
  unfold tier1_calls. rewrite filter_cons.
  destruct (is_http_get ev); by case_decide.
Qed.

Lemma tier2_calls_cons ev tr :
  tier2_calls (ev :: tr) = ((if is_tier2_call ev then 1 else 0) + tier2_calls tr)%nat.
Proof.
  unfold tier2_calls. rewrite filter_cons.
  destruct (is_tier2_call ev); by case_decide.
Qed.

Lemma tier_calls_stderr logged :
  tier1_calls (Stderr <$> logged) = 0 /\ tier2_calls (Stderr <$> logged) = 0.
Proof. by induction logged. Qed.

(** X14: no retries and a fixed order.  [search_action] calls the first
    tier exactly once when it is configured and never when it is not, calls
    the second tier at most once, and when it calls the first tier that call
    comes before anything else. *)
Theorem search_action_no_retry :
  forall (SEARXNG_URL : string) (B : backends) (query : string) (limit : Z),
    let tr := trace (search_action SEARXNG_URL B query limit) in
    tier1_calls tr = (if bool_decide (SEARXNG_URL = "") then 0 else 1) /\
    (tier2_calls tr <= 1)%nat /\
    (SEARXNG_URL <> "" ->
     exists rest,
       tr = HttpGet (searxng_endpoint SEARXNG_URL) (searxng_params query) :: rest).
Proof.
  intros SEARXNG_URL B query limit. cbn zeta.
  assert (forall results,
            tier1_calls (trace (ddgs_fallback B query limit results)) = 0 /\
            tier2_calls (trace (ddgs_fallback B query limit results)) = 1)
    as Hfallback.
  { intros results.
    destruct (ddgs_fallback_trace B query limit results) as (logged & -> & _).
    destruct (tier_calls_stderr logged) as [H1 H2].
    by rewrite tier1_calls_cons, tier2_calls_cons, H1, H2. }
  unfold search_action, truthy.
  case_bool_decide as Hcfg; cbn [negb].
  - destruct (Hfallback []) as [-> ->]. split; [done|]. split; [lia|done].
  - rewrite trace_emit, tier1_calls_cons, tier2_calls_cons. cbn [is_http_get is_tier2_call].
    destruct (searxng_try B SEARXNG_URL query limit) as [rs|rs|rs e].
    + split; [done|]. split; [unfold tier2_calls, trace, ret; simpl; lia|].
      by eexists.
    + destruct (Hfallback rs) as [-> ->].
      split; [done|]. split; [lia|]. by eexists.
    + unfold log_error.
      rewrite trace_emit, tier1_calls_cons, tier2_calls_cons.
      cbn [is_http_get is_tier2_call].
      destruct (Hfallback rs) as [-> ->].
      split; [done|]. split; [lia|]. by eexists.
Qed.

Lemma search_action_no_retry_witness :
  let tr := trace (search_action "http://searx.local:8080"
                     (mock_backends (inl connect_error) (inl connect_error))
                     "rocq" 10) in
  tier1_calls tr = 1 /\ (tier2_calls tr <= 1)%nat /\
  exists rest,
    tr = HttpGet "http://searx.local:8080/search" [("q", "rocq"); ("format", "json")]
         :: rest.
Proof.
  destruct (search_action_no_retry "http://searx.local:8080"
              (mock_backends (inl connect_error) (inl connect_error)) "rocq" 10)
    as (Hone & Hmost & Hfirst).
  split; [exact Hone|]. split; [exact Hmost|]. by apply Hfirst.
Defined.

Lemma ddgs_fallback_succeeds_trace B query limit results items :
  ddgs_text B query limit = inr items ->
  Forall is_dict items ->
  trace (ddgs_fallback B query limit results) = [DdgsText query limit].
Proof.
  intros Hcall Hall.
  destruct (append_each_all_ok ddgs_result is_dict
              (normalized_from "href" "title" "body") items results
              ddgs_result_dict Hall) as (new & Heach & _).
  unfold ddgs_fallback. rewrite trace_emit. f_equal.
  unfold try_except, bind, lift, trace. rewrite Hcall. simpl.
  by rewrite Heach.
Qed.

(** X15: what the first tier leaves on stderr before a second tier that
    succeeds.  An exception of the first-tier call is logged as one line,
    "[bridge error] SearXNG search failed: <str(e)>", between the two calls;
    a status other than 200 is not logged at all. *)
Theorem search_first_tier_logging :
  forall (SEARXNG_URL : string) (B : backends) (query : string) (limit : Z)
         (items : list json),
    SEARXNG_URL <> "" ->
    ddgs_text B query limit = inr items ->
    Forall is_dict items ->
    (forall e,
       httpx_get B (searxng_endpoint SEARXNG_URL) (searxng_params query) = inl e ->
       trace (search_action SEARXNG_URL B query limit)
       = [HttpGet (searxng_endpoint SEARXNG_URL) (searxng_params query);
          Stderr ("[bridge error] SearXNG search failed: " +:+ exn_str e);
          DdgsText query limit]) /\
    (forall response,
       httpx_get B (searxng_endpoint SEARXNG_URL) (searxng_params query)
       = inr response ->
       status_code response <> 200%Z ->
       trace (search_action SEARXNG_URL B query limit)
       = [HttpGet (searxng_endpoint SEARXNG_URL) (searxng_params query);
          DdgsText query limit]).
Proof.
  intros SEARXNG_URL B query limit items Hcfg Hcall Hall.
  unfold search_action, truthy. rewrite bool_decide_eq_false_2 by done.
  cbn [negb]. rewrite trace_emit. unfold searxng_try. split.
  - intros e ->. unfold log_error. rewrite trace_emit.
    by rewrite (ddgs_fallback_succeeds_trace B query limit [] items).
  - intros response -> Hst. apply Z.eqb_neq in Hst as ->.
    by rewrite (ddgs_fallback_succeeds_trace B query limit [] items).
Qed.

Lemma search_first_tier_logging_witness :
  trace (search_action "http://searx.local:8080"
           (mock_backends (inl connect_error)
              (inr [ddgs_hit "https://ddg.example" "D" "d"]))
           "rocq" 10)
  = [HttpGet "http://searx.local:8080/search" [("q", "rocq"); ("format", "json")];
     Stderr "[bridge error] SearXNG search failed: All connection attempts failed";
     DdgsText "rocq" 10].
Proof.
  destruct (search_first_tier_logging "http://searx.local:8080"
              (mock_backends (inl connect_error)
                 (inr [ddgs_hit "https://ddg.example" "D" "d"]))
              "rocq" 10 [ddgs_hit "https://ddg.example" "D" "d"])
    as [Hraised _]; [done|reflexivity|repeat constructor|].
  by apply (Hraised connect_error).
Defined.

Lemma rstrip_app (c : ascii) (s : string) :
  rstrip c (s +:+ String c EmptyString) = rstrip c s.
Proof.
  induction s as [|a s IH]; simpl.
  - by rewrite bool_decide_eq_true_2.
  - by rewrite IH.
Qed.

(** X16: a trailing slash of the configured url makes no difference:
    [search_action] behaves with [SEARXNG_URL + "/"] as with [SEARXNG_URL],
    when that is not empty. *)
Theorem search_action_trailing_slash :
  forall (SEARXNG_URL : string) (B : backends) (query : string) (limit : Z),
    SEARXNG_URL <> "" ->
    search_action (SEARXNG_URL +:+ "/") B query limit
    = search_action SEARXNG_URL B query limit.
Proof.
  intros SEARXNG_URL B query limit Hcfg.
  assert (SEARXNG_URL +:+ "/" <> "") as Hcfg' by by destruct SEARXNG_URL.
  unfold search_action, truthy, searxng_try, searxng_endpoint.
  rewrite !bool_decide_eq_false_2 by done.
  by rewrite rstrip_app.
Qed.

Lemma search_action_trailing_slash_witness :
  search_action ("http://searx.local:8080" +:+ "/")
    (mock_backends (inr (ok_response three_hits)) (inr [])) "rocq" 2
  = search_action "http://searx.local:8080"
      (mock_backends (inr (ok_response three_hits)) (inr [])) "rocq" 2.
Proof. by apply search_action_trailing_slash. Defined.

(** ** crawl *)

(** X17: whatever the engine streams, the list that [crawl_action] returns
    has at most [max_pages] pages when [max_pages] is at least 1, and at most
    one page otherwise. *)
Theorem crawl_action_page_ceiling :
  forall (E : engine) (url : string) (max_pages max_depth : Z)
         (strategy : string) (url_pattern : option string)
         (pages : list CrawlPage.t),
    outcome (crawl_action E url max_pages max_depth strategy url_pattern)
    = inr pages ->
    (Z.of_nat (length pages) <= Z.max max_pages 1)%Z.
Proof.
  intros E url max_pages max_depth strategy url_pattern pages Hout.
  by apply (crawl_action_at_most_one_more E url max_pages max_depth strategy
              url_pattern).
Qed.

Lemma crawl_action_page_ceiling_witness :
  (Z.of_nat (length (take 2 (pages_of five_pages))) <= Z.max 2 1)%Z.
Proof.
  apply (crawl_action_page_ceiling (mock_engine (failed_page "") five_pages)
           "https://example.com/" 2 1 "dfs" None).
  reflexivity.
Defined.

(** X18: with a ceiling of at least one page and a stream that ends,
    [crawl_action] returns the pages of the first [max_pages] successful
    results, in stream order, each with the result's url and markdown; failed
    results are left out and do not count. *)
Theorem crawl_action_returns_first_successes :
  forall (E : engine) (url : string) (max_pages max_depth : Z)
         (strategy : string) (url_pattern : option string)
         (results : list CrawlResult.t),
    (1 <= max_pages)%Z ->
    (forall browser_config run_config,
       arun_stream E url browser_config run_config = inr (agen_of_list results)) ->
    outcome (crawl_action E url max_pages max_depth strategy url_pattern)
    = inr (take (Z.to_nat max_pages)
             (page_of <$> filter (fun r => CrawlResult.success r = true) results)).
Proof.
  intros E url max_pages max_depth strategy url_pattern results Hpos Hrun.
  by rewrite (crawl_action_first_successes E url max_pages max_depth strategy
                url_pattern results Hpos Hrun).
Qed.

Lemma crawl_action_returns_first_successes_witness :
  outcome (crawl_action
             (mock_engine (failed_page "")
                (failed_page "https://example.com/0" :: five_pages))
             "https://example.com/" 2 2 "bfs" None)
  = inr [ {| CrawlPage.url := "https://example.com/1"; CrawlPage.markdown := "one" |};
          {| CrawlPage.url := "https://example.com/2"; CrawlPage.markdown := "two" |} ].
Proof.
  by rewrite (crawl_action_returns_first_successes _ _ _ _ _ _
                (failed_page "https://example.com/0" :: five_pages)).
Defined.

Lemma next_count_Arun url browser run tr :
  next_count (Arun url browser run :: tr) = next_count tr.
Proof. reflexivity. Qed.

Lemma trace_lift_bind {E A B} (a : A) (k : A -> M E B) :
  trace (bind (lift (inr a)) k) = trace (k a).
Proof. by rewrite bind_lift_inr. Qed.

(** X19: with a ceiling of at least one page and a stream that ends, the
    results that [crawl_action] takes from the stream are a prefix of it
    holding exactly the returned pages; and if it stops before the end of
    the stream, the ceiling has just been reached by the last result taken:
    nothing is taken after the page that completes [max_pages]. *)
Theorem crawl_action_stops_consuming :
  forall (E : engine) (url : string) (max_pages max_depth : Z)
         (strategy : string) (url_pattern : option string)
         (results : list CrawlResult.t),
    (1 <= max_pages)%Z ->
    (forall browser_config run_config,
       arun_stream E url browser_config run_config = inr (agen_of_list results)) ->
    let run := crawl_action E url max_pages max_depth strategy url_pattern in
    let taken := next_count (trace run) in
    taken <= length results /\
    outcome run = inr (pages_of (take taken results)) /\
    (taken < length results ->
     Z.of_nat (length (pages_of (take taken results))) = max_pages /\
     (Z.of_nat (length (pages_of (take (pred taken) results))) < max_pages)%Z).
Proof.
  intros E url max_pages max_depth strategy url_pattern results Hpos Hrun.
  cbn zeta.
  destruct (crawl_action_run E url max_pages max_depth strategy url_pattern)
    as (bc & rc & ->).
  rewrite outcome_emit, trace_emit, next_count_Arun, Hrun.
  rewrite bind_lift_inr.
  apply (crawl_loop_consumed max_pages results []). simpl. lia.
Qed.

Lemma crawl_action_stops_consuming_witness :
  let run := crawl_action (mock_engine (failed_page "") five_pages)
               "https://example.com/" 3 2 "bfs" None in
  next_count (trace run) = 3 /\
  outcome run = inr (pages_of (take 3 five_pages)).
Proof.
  intros run.
  destruct (crawl_action_stops_consuming (mock_engine (failed_page "") five_pages)
              "https://example.com/" 3 2 "bfs" None five_pages)
    as (_ & Hout & _); [lia|done|].
  split; [reflexivity|exact Hout].
Defined.

Lemma crawl_loop_interrupted max_pages results e pages :
  (Z.of_nat (length pages) < max_pages)%Z ->
  outcome (crawl_loop max_pages (agen_failing results e) pages)
  = if decide (max_pages - Z.of_nat (length pages)
               <= Z.of_nat (length (pages_of results)))%Z
    then inr (pages ++ take (Z.to_nat (max_pages - Z.of_nat (length pages)))
                            (pages_of results))
    else inl e.
Proof.
  revert pages. induction results as [|result rest IH]; intros pages Hlt;
    cbn [agen_failing].
  - unfold pages_of. simpl. rewrite decide_False by lia. done.
  - rewrite crawl_loop_yield, outcome_emit, pages_of_cons.
    destruct (CrawlResult.success result); [|by apply IH].
    destruct (Z.of_nat _ >=? max_pages)%Z eqn:Hfull.
    + apply geb_true in Hfull. rewrite length_app in Hfull. simpl in Hfull.
      rewrite decide_True by (simpl; lia).
      replace (Z.to_nat (max_pages - Z.of_nat (length pages))) with 1%nat by lia.
      simpl. by rewrite take_0.
    + apply geb_false in Hfull. rewrite IH by done.
      rewrite length_app in *. simpl in *.
      replace (Z.to_nat (max_pages - Z.of_nat (length pages)))
        with (S (Z.to_nat (max_pages - Z.of_nat (length pages + 1)))) by lia.
      simpl. rewrite <- app_assoc. simpl.
      destruct (decide (max_pages - Z.of_nat (length pages + 1)
                        <= Z.of_nat (length (pages_of rest)))%Z);
        [rewrite decide_True by lia|rewrite decide_False by lia]; done.
Qed.

(** X20: when the engine's stream raises after some results, the
    exception reaches the caller only if the ceiling has not been reached
    before: with at least [max_pages] successful results ahead of the failure
    [crawl_action] returns the first [max_pages] pages and never sees it;
    otherwise it raises the exception and the pages collected are lost. *)
Theorem crawl_action_interrupted_stream :
  forall (E : engine) (url : string) (max_pages max_depth : Z)
         (strategy : string) (url_pattern : option string)
         (results : list CrawlResult.t) (e : py_exn),
    (1 <= max_pages)%Z ->
    (forall browser_config run_config,
       arun_stream E url browser_config run_config
       = inr (agen_failing results e)) ->
    outcome (crawl_action E url max_pages max_depth strategy url_pattern)
    = if decide (max_pages <= Z.of_nat (length (pages_of results)))%Z
      then inr (take (Z.to_nat max_pages) (pages_of results))
      else inl e.
Proof.
  intros E url max_pages max_depth strategy url_pattern results e Hpos Hrun.
  destruct (crawl_action_run E url max_pages max_depth strategy url_pattern)
    as (bc & rc & ->).
  rewrite outcome_emit, Hrun, bind_lift_inr.
  rewrite crawl_loop_interrupted by (simpl; lia).
  simpl. by rewrite Z.sub_0_r.
Qed.

Lemma crawl_action_interrupted_stream_witness :
  outcome (crawl_action (interrupted_engine five_pages connect_error)
             "https://example.com/" 5 2 "bfs" None)
  = inr (pages_of five_pages) /\
  outcome (crawl_action (interrupted_engine five_pages connect_error)
             "https://example.com/" 6 2 "bfs" None)
  = inl connect_error.
Proof.
  split.
  - by rewrite (crawl_action_interrupted_stream _ _ _ _ _ _ five_pages connect_error).
  - by rewrite (crawl_action_interrupted_stream _ _ _ _ _ _ five_pages connect_error).
Defined.

(** ** map *)

Lemma candidates_truthy results entry :
  entry ∈ candidates results -> link_truthy (MapEntry.url entry) = true.
Proof. unfold candidates. rewrite list_elem_of_filter. tauto. Qed.

(** X21: whenever [map_action] returns, no entry of the output has an
    empty url, and for a [limit] that is not negative the output has at most
    [limit] entries. *)
Theorem map_action_output_bounds :
  forall (E : engine) (url : string) (search : option string) (limit : Z)
         (out : list MapEntry.t),
    outcome (map_action E url search limit) = inr out ->
    Forall (fun entry => MapEntry.url entry <> LinkStr "") out /\
    ((0 <= limit)%Z -> (Z.of_nat (length out) <= limit)%Z).
Proof.
  intros E url search limit out
    (bc & rc & results & Hrun & _ & ->)%map_action_returns.
  split; [|apply slice_upto_length_nonneg].
  apply Forall_forall. intros entry Hin Hurl.
  assert (entry ∈ candidates (agen_items results)) as Hcand.
  { apply first_seen_elem_of.
    eapply elem_of_sublist; [done|].
    etrans; [apply slice_upto_sublist|apply search_keep_sublist]. }
  apply candidates_truthy in Hcand. by rewrite Hurl in Hcand.
Qed.

Lemma map_action_output_bounds_witness :
  let out := [ {| MapEntry.url := LinkStr "/a"; MapEntry.title := "A" |} ] in
  Forall (fun entry => MapEntry.url entry <> LinkStr "") out /\
  ((0 <= 1)%Z -> (Z.of_nat (length out) <= 1)%Z).
Proof.
  apply (map_action_output_bounds
           (mock_engine (failed_page "")
              [page_with_links "https://example.com"
                 [LinkStr ""; anchor "" "empty"; anchor "/a" "A"; anchor "/b" "B"]])
           "https://example.com" None 1).
  reflexivity.
Defined.

Lemma search_filter_dict_url search_lower links :
  Exists (fun entry => ~ is_str_url entry) links ->
  search_filter search_lower links
  = inl (PyExn AttributeError "'dict' object has no attribute 'lower'").
Proof.
  induction 1 as [lnk links Hbad|lnk links _ IH].
  - simpl. unfold is_str_url in Hbad.
    destruct (MapEntry.url lnk); [tauto|done].
  - simpl. rewrite IH. by destruct (MapEntry.url lnk).
Qed.

Lemma agen_items_of_list {A} (l : list A) : agen_items (agen_of_list l) = l.
Proof. induction l; simpl; congruence. Qed.

Lemma agen_ends_of_list {A} (l : list A) : agen_ends (agen_of_list l) = true.
Proof. by induction l. Qed.

(** X22: a link given as a dict without [href] is kept with the dict
    itself as its url; when such a link (not empty) is among the internal
    links of a successful page and a non-empty [search] is given,
    [map_action] raises the [AttributeError] of calling [lower] on a dict
    instead of returning. *)
Theorem map_action_search_on_dict_url :
  forall (E : engine) (url : string) (query : string) (limit : Z)
         (results : list CrawlResult.t) (result : CrawlResult.t)
         (attrs : gmap string string),
    (forall browser_config run_config,
       arun_stream E url browser_config run_config = inr (agen_of_list results)) ->
    result ∈ results ->
    LinkDict attrs ∈ internal_links result ->
    attrs !! "href" = None ->
    attrs <> ∅ ->
    query <> "" ->
    outcome (map_action E url (Some query) limit)
    = inl (PyExn AttributeError "'dict' object has no attribute 'lower'").
Proof.
  intros E url query limit results result attrs Hrun Hres Hlink Hhref Hne Hq.
  pose proof (agen_items_of_list results) as Hitems.
  pose proof (agen_ends_of_list results) as Hends.
  set (entry := {| MapEntry.url := LinkDict attrs;
                   MapEntry.title := default "" (attrs !! "text") |}).
  assert (entry ∈ first_seen (candidates results)) as Hin.
  { apply first_seen_elem_of. unfold candidates.
    apply list_elem_of_filter. split.
    - simpl. by rewrite bool_decide_eq_false_2.
    - apply list_elem_of_fmap. exists (LinkDict attrs). split.
      + simpl. by rewrite Hhref.
      + apply list_elem_of_bind. by exists result. }
  unfold map_action. rewrite outcome_emit, Hrun, bind_lift_inr.
  pose proof (map_loop_ends (agen_of_list results) [] Hends) as Hloop.
  rewrite Hitems, collected_first_seen in Hloop.
  destruct (map_loop (agen_of_list results) []) as [tr r]. simpl in Hloop.
  subst r. unfold bind at 1.
  destruct (first_seen (candidates results)) as [|lnk links] eqn:Hseen;
    [by apply elem_of_nil in Hin|].
  unfold truthy. rewrite bool_decide_eq_false_2 by done. cbn [negb].
  rewrite search_filter_dict_url; [done|].
  apply Exists_exists. exists entry. split; [done|]. simpl. tauto.
Qed.

Lemma map_action_search_on_dict_url_witness :
  outcome (map_action
             (mock_engine (failed_page "")
                [page_with_links "https://example.com"
                   [anchor "/docs" "Docs"; LinkDict {[ "text" := "Docs" ]}]])
             "https://example.com" (Some "docs") 100)
  = inl (PyExn AttributeError "'dict' object has no attribute 'lower'").
Proof.
  apply (map_action_search_on_dict_url _ _ _ _
           [page_with_links "https://example.com"
              [anchor "/docs" "Docs"; LinkDict {[ "text" := "Docs" ]}]]
           (page_with_links "https://example.com"
              [anchor "/docs" "Docs"; LinkDict {[ "text" := "Docs" ]}])
           {[ "text" := "Docs" ]}); try done.
  - apply list_elem_of_here.
  - apply list_elem_of_further, list_elem_of_here.
Defined.

(** X24: on ASCII text (the search value, and the url and title of every
    collected entry), where lower-casing is that of the code: with a non-empty
    [search], every entry that [map_action] returns has a string url, and its
    url or its title contains the search substring when all three are put in
    lower case. *)
Theorem map_action_search_matches :
  forall (E : engine) (url : string) (query : string) (limit : Z)
         (out : list MapEntry.t),
    query <> "" ->
    is_ascii query = true ->
    (forall browser_config run_config results,
       arun_stream E url browser_config run_config = inr results ->
       Forall (fun entry => ascii_entry entry = true)
         (candidates (agen_items results))) ->
    outcome (map_action E url (Some query) limit) = inr out ->
    Forall (fun entry =>
              exists u,
                MapEntry.url entry = LinkStr u /\
                (contains (lower query) (lower u) = true \/
                 contains (lower query) (lower (MapEntry.title entry)) = true))
      out.
Proof.
  intros E url query limit out Hq _ _
    (bc & rc & results & Hrun & _ & ->)%map_action_returns.
  apply Forall_forall. intros entry Hin.
  assert (entry ∈ search_keep (Some query)
                    (first_seen (candidates (agen_items results)))) as Hkept.
  { eapply elem_of_sublist; [done|apply slice_upto_sublist]. }
  unfold search_keep, truthy in Hkept.
  rewrite bool_decide_eq_false_2 in Hkept by done. cbn [negb] in Hkept.
  apply list_elem_of_filter in Hkept as [Hmatch _].
  unfold entry_matches in Hmatch.
  destruct (MapEntry.url entry) as [u|d]; [|done].
  exists u. split; [done|]. by apply orb_true_iff in Hmatch.
Qed.

Lemma map_action_search_matches_witness :
  Forall (fun entry =>
            exists u,
              MapEntry.url entry = LinkStr u /\
              (contains (lower "DOCS") (lower u) = true \/
               contains (lower "DOCS") (lower (MapEntry.title entry)) = true))
    [ {| MapEntry.url := LinkStr "/Docs/start"; MapEntry.title := "Start" |};
      {| MapEntry.url := LinkStr "/api"; MapEntry.title := "API docs" |} ].
Proof.
  apply (map_action_search_matches
           (mock_engine (failed_page "")
              [page_with_links "https://example.com"
                 [anchor "/Docs/start" "Start"; anchor "/blog" "Blog";
                  anchor "/api" "API docs"; LinkStr "/about"]])
           "https://example.com" "DOCS" 100); [done|reflexivity| |reflexivity].
  intros browser_config run_config results [= <-].
  repeat constructor.
Defined.

(** ** debug *)

(** X25: a debug request is answered with a success envelope carrying the
    three diagnostics, and nothing else happens, whatever [params] holds (it
    is not read) and whatever the lookups of the engine's version do: the
    version is the one imported; else, from the package attribute, its own
    [__version__] when it has one and its [str()] otherwise; else "unknown",
    when the attribute is absent or its [str()] raises.  The url of the first
    tier is reported as "not configured" when it is empty. *)
Theorem debug_request_always_answered :
  forall (repr_str : string -> string) (H : Handlers.t) (R : runtime)
         (SEARXNG_URL : string) (request : list (string * json)),
    Handlers.debug_action H = debug_action R SEARXNG_URL ->
    request_action request = JStr "debug" ->
    main repr_str H (inr (JObj request))
    = ([Stdout
          (JObj [("success", JBool true);
                 ("data",
                  JObj [("crawl4ai_version",
                         match version_import R, package_version R with
                         | inr v, _ => v
                         | inl _, AttrModule inner => inner
                         | inl _, AttrOther (inr s) => JStr s
                         | inl _, AttrOther (inl _) => JStr "unknown"
                         | inl _, AttrAbsent => JStr "unknown"
                         end);
                        ("searxng_url",
                         JStr (if bool_decide (SEARXNG_URL = "")
                               then "not configured" else SEARXNG_URL));
                        ("python_version", JStr (sys_version R))])])],
       inr tt).
Proof.
  intros repr_str H R SEARXNG_URL request Hdebug Haction.
  rewrite (main_handler_returns_data repr_str H request (debug_action R SEARXNG_URL)).
  - unfold debug_action, ret, trace, outcome. simpl.
    destruct (version_import R) as [e|v];
      [destruct (package_version R) as [|inner|[e'|s]]|]; reflexivity.
  - rewrite Haction. unfold handler_call. simpl. by rewrite Hdebug.
Qed.

Lemma debug_request_always_answered_witness :
  let R := {| version_import := inl (PyExn (OtherError "ModuleNotFoundError")
                                       "No module named 'crawl4ai.__version__'");
              package_version := AttrOther (inr "0.4.2");
              sys_version := "3.12.4 (main)" |} in
  main repr_plain (debug_handlers R "")
    (inr (JObj [("action", JStr "debug"); ("params", JArr [JInt 1])]))
  = ([Stdout
        (JObj [("success", JBool true);
               ("data",
                JObj [("crawl4ai_version", JStr "0.4.2");
                      ("searxng_url", JStr "not configured");
                      ("python_version", JStr "3.12.4 (main)")])])],
     inr tt).
Proof.
  intros R.
  by rewrite (debug_request_always_answered repr_plain (debug_handlers R "") R "").
Defined.

(** ** extract *)

Lemma bind_emit {E A} (ev : E) (m : M E A) :
  bind (emit ev) (fun _ => m) = (ev :: trace m, outcome m).
Proof. unfold bind, emit, trace, outcome. by destruct m. Qed.

(** X26: a [schema] that is not a dict makes [extract_action] raise the
    [AttributeError] of [schema.items()] before the engine is run: nothing
    is fetched. *)
Theorem extract_action_schema_not_dict :
  forall (C : capture_engine) (url : string) (schema : json),
    strategy_import C = None ->
    ~ is_dict schema ->
    extract_action C url schema
    = ([], inl (PyExn AttributeError
                  ("'" +:+ type_name schema +:+ "' object has no attribute 'items'"))).
Proof.
  intros C url schema Himport Hnot. unfold extract_action.
  rewrite Himport, bind_lift_inr.
  destruct schema; simpl in Hnot; try tauto; reflexivity.
Qed.

Lemma extract_action_schema_not_dict_witness :
  extract_action (mock_capture (inl connect_error) (inl connect_error)
                    (fun _ => inr JNull))
    "https://example.com" (JArr [JStr "h1"])
  = ([], inl (PyExn AttributeError "'list' object has no attribute 'items'")).
Proof.
  apply (extract_action_schema_not_dict _ _ (JArr [JStr "h1"])); [done|].
  simpl. tauto.
Defined.

(** X27: for a dict [schema], [extract_action] runs the engine once, in
    stealth mode, with one field descriptor per entry of the schema, in
    order, each of type "text", under the base selector "html".  When the run
    succeeds, extracted content that is missing or empty gives the empty dict
    without being decoded; any other content gives what [json.loads] makes
    of it, its exception included. *)
Theorem extract_action_content :
  forall (C : capture_engine) (url : string) (entries : list (string * json))
         (result : CaptureResult.t),
    let extraction_schema :=
      JObj [("name", JStr "extraction"); ("baseSelector", JStr "html");
            ("fields",
             JArr ((fun entry =>
                      JObj [("name", JStr (fst entry)); ("selector", snd entry);
                            ("type", JStr "text")]) <$> entries))] in
    strategy_import C = None ->
    arun_extract C url stealth_browser extraction_schema = inr result ->
    CaptureResult.success result = true ->
    extract_action C url (JObj entries)
    = ([ArunExtract url stealth_browser extraction_schema],
       match CaptureResult.extracted_content result with
       | Some content =>
           if bool_decide (content = "") then inr (JObj [])
           else json_loads C content
       | None => inr (JObj [])
       end).
Proof.
  intros C url entries result extraction_schema Himport Hrun Hsucc.
  unfold extract_action. rewrite Himport. cbn [py_items].
  rewrite !bind_lift_inr.
  change (extraction_schema_of (extraction_field <$> entries))
    with extraction_schema.
  rewrite bind_emit, Hrun, bind_lift_inr, Hsucc. cbn [negb].
  destruct (CaptureResult.extracted_content result) as [content|]; [|done].
  unfold truthy. by destruct (bool_decide (content = "")).
Qed.

Lemma extract_action_content_witness :
  outcome (extract_action
             (mock_capture (inr (captured (Some "") None)) (inl connect_error)
                (fun _ => inl (JSONDecodeError "Expecting value" 1 1 0)))
             "https://example.com" (JObj [("title", JStr "h1")]))
  = inr (JObj []).
Proof.
  by rewrite (extract_action_content _ _ _ (captured (Some "") None)).
Defined.

(** ** screenshot *)

(** X28: whenever [screenshot_action] returns, the engine was run with a
    viewport of the given width and height (and without stealth), it reported
    success with an image that is not empty, and the value returned is that
    image behind the prefix "data:image/png;base64,". *)
Theorem screenshot_action_data_uri :
  forall (C : capture_engine) (url : string) (width height : Z) (uri : string),
    outcome (screenshot_action C url width height) = inr uri ->
    exists result image,
      arun_screenshot C url
        {| headless := true; browser_type := "chromium"; enable_stealth := None;
           extra_args := None; viewport := Some (width, height) |}
      = inr result /\
      CaptureResult.success result = true /\
      CaptureResult.screenshot result = Some image /\
      image <> "" /\
      uri = "data:image/png;base64," +:+ image.
Proof.
  intros C url width height uri. unfold screenshot_action.
  rewrite outcome_emit.
  intros (result & Hrun & Hout)%outcome_lift_bind.
  exists result.
  destruct (CaptureResult.success result); [|done]. cbn [negb] in Hout.
  destruct (CaptureResult.screenshot result) as [image|]; [|done].
  exists image. unfold truthy in Hout.
  destruct (decide (image = "")) as [->|Hne]; [done|].
  rewrite bool_decide_eq_false_2 in Hout by done.
  injection Hout as <-. done.
Qed.

Lemma screenshot_action_data_uri_witness :
  exists result image,
    arun_screenshot
      (mock_capture (inl connect_error) (inr (captured None (Some "iVBORw0KGgo=")))
         (fun _ => inr JNull))
      "https://example.com"
      {| headless := true; browser_type := "chromium"; enable_stealth := None;
         extra_args := None; viewport := Some (1280, 720)%Z |}
    = inr result /\
    CaptureResult.success result = true /\
    CaptureResult.screenshot result = Some image /\
    image <> "" /\
    "data:image/png;base64,iVBORw0KGgo=" = "data:image/png;base64," +:+ image.
Proof.
  apply (screenshot_action_data_uri _ _ 1280 720). reflexivity.
Defined.

(** X29: [screenshot_action] raises when the engine reports failure, with
    the engine's message or "Failed to take screenshot" when there is none;
    and when the engine reports success without an image ([None] or empty),
    with "No screenshot captured". *)
Theorem screenshot_action_raises :
  forall (C : capture_engine) (url : string) (width height : Z)
         (result : CaptureResult.t),
    (forall browser_config, arun_screenshot C url browser_config = inr result) ->
    (CaptureResult.success result = false ->
     outcome (screenshot_action C url width height)
     = inl (PyExn Exception_
              match CaptureResult.error_message result with
              | Some message =>
                  if bool_decide (message = "") then "Failed to take screenshot"
                  else message
              | None => "Failed to take screenshot"
              end)) /\
    (CaptureResult.success result = true ->
     CaptureResult.screenshot result = None \/
     CaptureResult.screenshot result = Some "" ->
     outcome (screenshot_action C url width height)
     = inl (PyExn Exception_ "No screenshot captured")).
Proof.
  intros C url width height result Hrun.
  unfold screenshot_action. rewrite outcome_emit, Hrun, bind_lift_inr.
  split.
  - by intros ->.
  - by intros -> [->| ->].
Qed.

Lemma screenshot_action_raises_witness :
  outcome (screenshot_action
             (mock_capture (inl connect_error) (inr (capture_failed None))
                (fun _ => inr JNull))
             "https://example.com" 1280 720)
  = inl (PyExn Exception_ "Failed to take screenshot") /\
  outcome (screenshot_action
             (mock_capture (inl connect_error) (inr (captured None (Some "")))
                (fun _ => inr JNull))
             "https://example.com" 1280 720)
  = inl (PyExn Exception_ "No screenshot captured").
Proof.
  split.
  - by apply (screenshot_action_raises _ _ _ _ (capture_failed None)).
  - apply (screenshot_action_raises _ _ _ _ (captured None (Some "")));
      [done|done|by right].
Defined.
